(** * dotnet-interactive-vscode: the activation entry point [extension.ts]

    A shallow embedding of [src/vscode/extension.ts]: the [activate]
    function, the client-creation factory it hands to the [ClientMapper], the
    three notebook event handlers and [getDotnetPath].

    The host editor ([vscode]), the acquisition commands and the kernel
    subprocess are the environment: their answers are the fields of a [Host]
    record, and every call the extension makes on them is appended to a log
    of [Event]s, in program order.  An [async] function is a computation in
    the monad [M]; [await] of a rejected promise throws. *)

From stdpp Require Import gmap strings list pretty.
From Stdlib Require Import Floats.SpecFloat.

#[local] Set Warnings "-register-all".

(** ** JavaScript values *)

(** The values a setting or a metadata bag can hold.  A number is an IEEE
    754 binary64, as in JavaScript. *)
Inductive JsValue : Type :=
| JUndefined
| JNull
| JBool (b : bool)
| JNumber (x : spec_float)
| JString (s : string)
| JArray (items : list JsValue)
| JObject (fields : list (string * JsValue)).

(** The binary64 number of an integer literal. *)
Definition number_of_Z (z : Z) : spec_float :=
  match z with
  | Z0 => S754_zero false
  | Zpos p => binary_round 53 1024 false p 0
  | Zneg p => binary_round 53 1024 true p 0
  end.

(** ECMAScript [ToBoolean]. *)
Definition truthy (v : JsValue) : bool :=
  match v with
  | JUndefined | JNull => false
  | JBool b => b
  | JNumber (S754_zero _) | JNumber S754_nan => false
  | JNumber _ => true
  | JString s => negb (String.eqb s "")
  | JArray _ | JObject _ => true
  end.

(** [a || b] *)
Definition js_or (a b : JsValue) : JsValue := if truthy a then a else b.

(** The double quote character, for template literals that contain one. *)
Definition dquote : string := String (Ascii.ascii_of_nat 34) EmptyString.

(** ** Results, promises and errors *)

Inductive Error : Type :=
| TypeError (what : string)
| Rejected (reason : string)
| LaunchError
| HandshakeTimeout
| HandshakeProtocolError
| TransportClosed
| InvalidState.

(** The outcome of a call, and the settled state of a promise. *)
Inductive Result (A : Type) : Type :=
| Ok (a : A)
| Thrown (e : Error).
Arguments Ok {A} a.
Arguments Thrown {A} e.

(** ** The host's data *)

(** [vscode.Uri]; [Uri_parse] is [vscode.Uri.parse]. *)
Definition Uri : Type := string.
Definition Uri_parse (text : string) : Uri := text.

(** A [WorkspaceConfiguration] object: the values of one section, as the
    host made them out of the settings when [getConfiguration] was called.
    A later change of the settings is seen through a new object only; this
    is the "config item" of the comment at line 40 of [extension.ts], whose
    values are "cached". *)
Record WorkspaceConfiguration : Type := mkConfig {
  cfg_values : gmap string JsValue
}.

(** [config.get(key)] *)
Definition config_get (config : WorkspaceConfiguration) (key : string) : JsValue :=
  default JUndefined (cfg_values config !! key).

(** [interfaces.ProcessStart] *)
Record ProcessStart : Type := mkProcessStart {
  ps_command : string;
  ps_args : list string;
  ps_workingDirectory : string
}.

(** The template handed to [processArguments] (line 43). *)
Record ArgsTemplate : Type := mkArgsTemplate {
  tmpl_args : JsValue;
  tmpl_workingDirectory : JsValue
}.

(** The result of [execute] ([commands.ts]). *)
Record ExecResult : Type := mkExecResult {
  exec_code : Z;
  exec_output : string
}.

(** [interfaces/dotnet.IDotnetAcquireResult] *)
Record IDotnetAcquireResult : Type := mkAcquire {
  acq_dotnetPath : string
}.

(** [interfaces.InteractiveLaunchOptions] *)
Record InteractiveLaunchOptions : Type := mkLaunchOptions {
  lo_workingDirectory : string
}.

(** [interfaces.InstallInteractiveArgs] *)
Record InstallInteractiveArgs : Type := mkInstallArgs {
  ia_dotnetPath : string
}.

(** ** The kernel subprocess and its transport *)

(** A decoded line of the subprocess's standard output (spec, section 6). *)
Inductive StdoutLine : Type :=
| ReadinessLine (port : N)
| FailureLine (text : string)
| OtherLine (text : string).

(** What follows the lines a subprocess writes: it exits, or it stays
    silent for good. *)
Inductive StreamEnd : Type := ProcessExits | StaysSilent.

Record ProcessOutput : Type := mkProcessOutput {
  po_lines : list StdoutLine;
  po_end : StreamEnd
}.

(** Modelled from the spec: the readiness handshake of section 4.2
    ([stdioKernelTransport.ts] is not among the sources).  Lines are
    consumed until a readiness line gives the bound port; a failure line or
    the end of the stream is a [HandshakeProtocolError], silence a
    [HandshakeTimeout]. *)
Fixpoint handshake (lines : list StdoutLine) (fin : StreamEnd) : Result N :=
  match lines with
  | [] => match fin with
          | ProcessExits => Thrown HandshakeProtocolError
          | StaysSilent => Thrown HandshakeTimeout
          end
  | ReadinessLine port :: _ => Ok port
  | FailureLine _ :: _ => Thrown HandshakeProtocolError
  | OtherLine _ :: rest => handshake rest fin
  end.

(** Modelled from the spec: the states of a kernel transport (section 4.3). *)
Inductive TransportState : Type :=
| Created | Launching | AwaitingReady | Ready
| TunnelEstablishing | TunnelReady | Disposed | Failed.

(** Modelled from the spec: a kernel transport (section 3): one subprocess,
    its local port once negotiated, and the optional external URI.
    [transport_id] is the identity of the object. *)
Record StdioKernelTransport : Type := mkTransport {
  transport_id : nat;
  transport_start : ProcessStart;
  transport_state : TransportState;
  httpPort : option N;
  externalUri : option Uri
}.

(** ** Notebook documents *)

Inductive CellKind : Type := MarkdownCell | CodeCell.

(** A [vscode.NotebookCell].  [cell_handle] is the identity of the object
    (what [===] compares); [cell_text] is [cell.document.getText()]. *)
Record NotebookCell : Type := mkCell {
  cell_handle : nat;
  cell_kind : CellKind;
  cell_text : string;
  cell_language : string;
  cell_outputs : list JsValue;
  cell_metadata : JsValue
}.

(** A [vscode.NotebookCellData]. *)
Record NotebookCellData : Type := mkCellData {
  cd_cellKind : CellKind;
  cd_source : string;
  cd_language : string;
  cd_outputs : list JsValue;
  cd_metadata : JsValue
}.

(** A [vscode.NotebookDocument]. *)
Record NotebookDocument : Type := mkDocument {
  doc_uri : Uri;
  doc_languages : list string;
  doc_metadata : JsValue;
  doc_cells : list NotebookCell
}.

(** A [vscode.NotebookKernel]; its [id] is optional. *)
Record NotebookKernel : Type := mkKernel {
  kernel_id : option string
}.

(** The two notebook edits [extension.ts] builds on a [WorkspaceEdit]. *)
Inductive NotebookEdit : Type :=
| ReplaceNotebookCells (uri : Uri) (start stop : nat) (cells : list NotebookCellData)
| ReplaceNotebookCellMetadata (uri : Uri) (index : nat) (metadata : JsValue).

Definition WorkspaceEdit : Type := list NotebookEdit.

(** [ipynbUtilities.DotNetCellMetadata] and [LanguageInfoMetadata]. *)
Record DotNetCellMetadata : Type := mkDotNetCellMetadata {
  dn_language : option string
}.

Record LanguageInfoMetadata : Type := mkLanguageInfo {
  li_name : option string
}.

(** ** What [extension.ts] imports from the rest of the repository

    [interactiveNotebook.ts], [ipynbUtilities.ts], [utilities.ts],
    [notebookKernel.ts] and the [compare-versions] package are not among
    the sources; [extension.ts] is verified for every implementation of
    them.  [processArguments] and [compareVersions.compare] may throw. *)
Class Imports : Type := {
  KernelId : string;
  notebookCellLanguages : list string;
  isDotnetInteractiveLanguage : string -> bool;
  getSimpleLanguage : string -> string;
  getDotNetMetadata : JsValue -> DotNetCellMetadata;
  getLanguageInfoMetadata : JsValue -> LanguageInfoMetadata;
  getCellLanguage : DotNetCellMetadata -> LanguageInfoMetadata -> string -> string;
  withDotNetMetadata : JsValue -> DotNetCellMetadata -> JsValue;
  processArguments : ArgsTemplate -> string -> string -> string -> Result ProcessStart;
  compareVersions_compare : string -> JsValue -> string -> Result bool
}.

(** ** The environment and the log *)

(** The argument of [vscode.commands.executeCommand]. *)
Inductive CommandArg : Type :=
| DotnetAcquireArg (version : JsValue) (requestingExtensionId : string)
| InstallInteractiveArg (installArgs : InstallInteractiveArgs).

(** What [activate] registers with the host. *)
Inductive Registration : Type :=
| AcquisitionCommands
| KernelCommands
| FileCommands
| NotebookContentProvider (viewType : string)
| NotebookKernelProvider (viewType : list string) (filenamePattern : string)
| OnDidChangeActiveNotebookKernel
| OnDidChangeCellLanguage
| OnDidCloseNotebookDocument
| LanguageProviders (diagnosticDelay : JsValue).

(** One call of the extension on its environment, with the outcome where
    the call is awaited. *)
Inductive Event : Type :=
| ERegister (r : Registration)
| EGetConfiguration (section : string)
| ECreateOutputChannel (name : string)
| EAppendLine (line : string)
| EExecute (command : string) (args : list string)
| EExecuteCommand (command : string) (arg : CommandArg)
| ENewTransport (id : nat) (processStart : ProcessStart)
| EWaitForReady (id : nat) (outcome : Result N)
| EAsExternalUri (uri : Uri)
| ESetExternalUri (id : nat) (uri : Uri) (outcome : Result unit)
| EDispose (id : nat)
| ECloseClient (uri : Uri).

(** The answers of the environment at one moment.  A change of the
    settings, or of anything else outside the extension, is another [Host]. *)
Record Host : Type := mkHost {
  h_configuration : string -> WorkspaceConfiguration;
  h_execute : string -> list string -> Result ExecResult;
  h_dotnet_acquire : JsValue -> Result (option IDotnetAcquireResult);
  h_interactive_acquire : InstallInteractiveArgs -> Result (option InteractiveLaunchOptions);
  h_launch : ProcessStart -> Result ProcessOutput;
  h_asExternalUri : Uri -> Result Uri;
  h_tunnel : Uri -> Result unit
}.

(** The host after a change of the settings. *)
Definition with_configuration (h : Host) (configuration : string -> WorkspaceConfiguration)
  : Host :=
  {| h_configuration := configuration;
     h_execute := h_execute h;
     h_dotnet_acquire := h_dotnet_acquire h;
     h_interactive_acquire := h_interactive_acquire h;
     h_launch := h_launch h;
     h_asExternalUri := h_asExternalUri h;
     h_tunnel := h_tunnel h |}.

(** The mutable state of one extension host: the log, the next transport
    identity, [context.subscriptions] and the table of the [ClientMapper]. *)
Record Store : Type := mkStore {
  log : list Event;
  next_transport : nat;
  subscriptions : list Registration;
  clientMap : gmap Uri StdioKernelTransport
}.

Definition initial_store : Store :=
  {| log := []; next_transport := 0; subscriptions := []; clientMap := ∅ |}.

(** The four updates of a store. *)
Definition add_log (s : Store) (events : list Event) : Store :=
  {| log := log s ++ events; next_transport := next_transport s;
     subscriptions := subscriptions s; clientMap := clientMap s |}.

Definition add_subscription (s : Store) (r : Registration) : Store :=
  {| log := log s; next_transport := next_transport s;
     subscriptions := subscriptions s ++ [r]; clientMap := clientMap s |}.

Definition bump_transport (s : Store) : Store :=
  {| log := log s; next_transport := S (next_transport s);
     subscriptions := subscriptions s; clientMap := clientMap s |}.

Definition with_clientMap (s : Store) (m : gmap Uri StdioKernelTransport) : Store :=
  {| log := log s; next_transport := next_transport s;
     subscriptions := subscriptions s; clientMap := m |}.

(** ** The monad of [async] functions *)

Definition M (A : Type) : Type := Host -> Store -> Result A * Store.

#[global] Instance M_ret : MRet M := fun A a _ s => (Ok a, s).

#[global] Instance M_bind : MBind M := fun A B k m h s =>
  match m h s with
  | (Ok a, s') => k a h s'
  | (Thrown e, s') => (Thrown e, s')
  end.

Definition throw {A : Type} (e : Error) : M A := fun _ s => (Thrown e, s).

(** [await p] for a settled promise [p]. *)
Definition await {A : Type} (p : Result A) : M A := fun _ s => (p, s).

(** Calling an [async] function without awaiting it: the promise it
    returns.  The body is run to completion where the promise is created;
    its calls on the environment keep their order among themselves. *)
Definition promise_of {A : Type} (m : M A) : M (Result A) :=
  fun h s => let '(r, s') := m h s in (Ok r, s').

Definition host : M Host := fun h s => (Ok h, s).

Definition emit (e : Event) : M unit := fun _ s => (Ok tt, add_log s [e]).

(** [context.subscriptions.push(r)] *)
Definition subscribe (r : Registration) : M unit :=
  fun _ s => (Ok tt, add_subscription s r).

Definition fresh_transport_id : M nat :=
  fun _ s => (Ok (next_transport s), bump_transport s).

Definition get_clientMap : M (gmap Uri StdioKernelTransport) :=
  fun _ s => (Ok (clientMap s), s).

Definition set_clientMap (m : gmap Uri StdioKernelTransport) : M unit :=
  fun _ s => (Ok tt, with_clientMap s m).

(** ** Calls on the host *)

Definition getConfiguration (section : string) : M WorkspaceConfiguration :=
  emit (EGetConfiguration section);;
  h ← host;
  mret (h_configuration h section).

Definition appendLine (line : string) : M unit := emit (EAppendLine line).

Definition execute (command : string) (args : list string) : M ExecResult :=
  emit (EExecute command args);;
  h ← host;
  await (h_execute h command args).

Definition asExternalUri (uri : Uri) : M Uri :=
  emit (EAsExternalUri uri);;
  h ← host;
  await (h_asExternalUri h uri).

(** Registering something with the host and pushing the disposable to
    [context.subscriptions]. *)
Definition register_and_push (r : Registration) : M unit :=
  emit (ERegister r);; subscribe r.

(** ** The kernel transport's operations *)

(** Modelled from the spec: [new StdioKernelTransport(processStart, ...)]
    (section 4.3; [stdioKernelTransport.ts] is not among the sources): a new
    object, in state [Created]. *)
Definition new_StdioKernelTransport (processStart : ProcessStart) : M StdioKernelTransport :=
  id ← fresh_transport_id;
  emit (ENewTransport id processStart);;
  mret {| transport_id := id; transport_start := processStart;
          transport_state := Created; httpPort := None; externalUri := None |}.

(** Modelled from the spec: [waitForReady()] (section 4.3).  On a new
    transport the subprocess is launched and the handshake run on its
    output; a transport that is ready already is returned as it is, with no
    second launch. *)
Definition waitForReady (t : StdioKernelTransport) : M StdioKernelTransport :=
  match transport_state t with
  | Created =>
      h ← host;
      let outcome :=
        match h_launch h (transport_start t) with
        | Ok out => handshake (po_lines out) (po_end out)
        | Thrown e => Thrown e
        end in
      emit (EWaitForReady (transport_id t) outcome);;
      port ← await outcome;
      mret {| transport_id := transport_id t; transport_start := transport_start t;
              transport_state := Ready; httpPort := Some port;
              externalUri := externalUri t |}
  | Ready | TunnelEstablishing | TunnelReady => mret t
  | Disposed => throw TransportClosed
  | Launching | AwaitingReady | Failed => throw InvalidState
  end.

(** Modelled from the spec: [setExternalUri(uri)] (section 4.3), "only
    valid from [Ready]"; the tunnel is the host's to establish. *)
Definition setExternalUri (t : StdioKernelTransport) (uri : Uri) : M StdioKernelTransport :=
  h ← host;
  let outcome :=
    match transport_state t with
    | Ready => h_tunnel h uri
    | _ => Thrown InvalidState
    end in
  emit (ESetExternalUri (transport_id t) uri outcome);;
  await outcome;;
  mret {| transport_id := transport_id t; transport_start := transport_start t;
          transport_state := TunnelReady; httpPort := httpPort t;
          externalUri := Some uri |}.

(** Modelled from the spec: [dispose()] (section 4.3), idempotent. *)
Definition dispose (t : StdioKernelTransport) : M StdioKernelTransport :=
  match transport_state t with
  | Disposed => mret t
  | _ =>
      emit (EDispose (transport_id t));;
      mret {| transport_id := transport_id t; transport_start := transport_start t;
              transport_state := Disposed; httpPort := httpPort t;
              externalUri := externalUri t |}
  end.

(** The text of [transport.httpPort] in a template literal. *)
Definition port_text (port : option N) : string :=
  match port with
  | Some n => pretty n
  | None => "undefined"
  end.

(** Modelled from the spec: the local endpoint of a transport, "host+port"
    (section 3), [localhost:8765] for port 8765 (section 8). *)
Definition local_endpoint (t : StdioKernelTransport) : string :=
  "localhost:" +:+ port_text (httpPort t).

(** Modelled from the spec: the endpoint the editor uses: the external URI
    when one was set, the local one otherwise (section 4.3: "If never
    called, local endpoint is used directly"). *)
Definition endpoint_uri (t : StdioKernelTransport) : Uri :=
  match externalUri t with
  | Some uri => uri
  | None => Uri_parse ("http://" +:+ local_endpoint t)
  end.

(** ** The host's notebook edits *)

(** [Array.prototype.findIndex]: the first index whose element satisfies
    the predicate, [-1] when there is none. *)
Fixpoint findIndex {A : Type} (p : A -> bool) (l : list A) : Z :=
  match l with
  | [] => (-1)%Z
  | x :: rest =>
      if p x then 0%Z
      else let i := findIndex p rest in
           if (i <? 0)%Z then (-1)%Z else (i + 1)%Z
  end.

(** [c === cell] on two cell objects. *)
Definition same_cell (cell c : NotebookCell) : bool :=
  Nat.eqb (cell_handle c) (cell_handle cell).

(** The data of a cell: all of it but the identity of the object. *)
Definition cell_data (c : NotebookCell) : NotebookCellData :=
  {| cd_cellKind := cell_kind c; cd_source := cell_text c;
     cd_language := cell_language c; cd_outputs := cell_outputs c;
     cd_metadata := cell_metadata c |}.

Definition set_languages (languages : list string) (doc : NotebookDocument) : NotebookDocument :=
  {| doc_uri := doc_uri doc; doc_languages := languages;
     doc_metadata := doc_metadata doc; doc_cells := doc_cells doc |}.

Definition set_cells (cells : list NotebookCell) (doc : NotebookDocument) : NotebookDocument :=
  {| doc_uri := doc_uri doc; doc_languages := doc_languages doc;
     doc_metadata := doc_metadata doc; doc_cells := cells |}.

Definition set_cell_metadata (metadata : JsValue) (c : NotebookCell) : NotebookCell :=
  {| cell_handle := cell_handle c; cell_kind := cell_kind c; cell_text := cell_text c;
     cell_language := cell_language c; cell_outputs := cell_outputs c;
     cell_metadata := metadata |}.

(** The host makes new cell objects of the data it is given, with
    identities no cell of the document has. *)
Fixpoint cells_of_data (handle : nat) (data : list NotebookCellData) : list NotebookCell :=
  match data with
  | [] => []
  | d :: rest =>
      {| cell_handle := handle; cell_kind := cd_cellKind d; cell_text := cd_source d;
         cell_language := cd_language d; cell_outputs := cd_outputs d;
         cell_metadata := cd_metadata d |} :: cells_of_data (S handle) rest
  end.

Definition fresh_handle (cells : list NotebookCell) : nat :=
  S (max_list (map cell_handle cells)).

(** What the host does with one notebook edit on a document:
    [replaceNotebookCells(uri, start, end, cells)] puts the new cells in
    the place of the cells [start .. end-1], and
    [replaceNotebookCellMetadata(uri, index, metadata)] sets the metadata
    of the cell at [index].  An edit for another document leaves this one
    alone. *)
Definition apply_edit (doc : NotebookDocument) (e : NotebookEdit) : NotebookDocument :=
  match e with
  | ReplaceNotebookCells uri start stop data =>
      if String.eqb uri (doc_uri doc) then
        set_cells (take start (doc_cells doc)
                     ++ cells_of_data (fresh_handle (doc_cells doc)) data
                     ++ drop stop (doc_cells doc)) doc
      else doc
  | ReplaceNotebookCellMetadata uri index metadata =>
      if String.eqb uri (doc_uri doc) then
        set_cells (alter (set_cell_metadata metadata) index (doc_cells doc)) doc
      else doc
  end.

(** [vscode.workspace.applyEdit(edit)], on the document the event is about. *)
Definition applyEdit (edit : WorkspaceEdit) (doc : NotebookDocument) : NotebookDocument :=
  foldl apply_edit doc edit.

(** ** The client mapper *)

(** Modelled from the spec: [ClientMapper.getOrCreateClient] (section 4.4;
    [clientMapper.ts] is not among the sources), for one caller at a time:
    the transport of the table if there is one, else the factory's, which is
    stored; a failure of the factory is passed on and nothing is stored. *)
Definition getOrCreateClient (factory : string -> M StdioKernelTransport)
    (documentIdentity : Uri) : M StdioKernelTransport :=
  table ← get_clientMap;
  match table !! documentIdentity with
  | Some t => mret t
  | None =>
      t ← factory documentIdentity;
      table ← get_clientMap;
      set_clientMap (<[documentIdentity := t]> table);;
      mret t
  end.

(** Modelled from the spec: [ClientMapper.closeClient] (section 4.4):
    "removes and disposes the transport for that identity if present; no-op
    if absent".  The call itself is logged. *)
Definition closeClient (documentIdentity : Uri) : M unit :=
  emit (ECloseClient documentIdentity);;
  table ← get_clientMap;
  match table !! documentIdentity with
  | Some t =>
      set_clientMap (delete documentIdentity table);;
      dispose t;;
      mret tt
  | None => mret tt
  end.

(** ** [extension.ts] *)

Section Extension.
Context `{Imports}.

(** [isDotnetUpToDate] (lines 154-157) *)
Definition isDotnetUpToDate (minVersion : JsValue) : M bool :=
  result ← execute "dotnet" ["--version"];
  if (exec_code result =? 0)%Z
  then await (compareVersions_compare (exec_output result) minVersion ">=")
  else mret false.

(** [getDotnetPath] (lines 129-143) *)
Definition getDotnetPath : M string :=
  config ← getConfiguration "dotnet-interactive";
  let minDotNetSdkVersion := config_get config "minimumDotNetSdkVersion" in
  upToDate ← isDotnetUpToDate minDotNetSdkVersion;
  dotnetPath ←
    (if upToDate : bool then mret "dotnet"
     else
       emit (EExecuteCommand "dotnet.acquire"
               (DotnetAcquireArg minDotNetSdkVersion
                  "ms-dotnettools.dotnet-interactive-vscode"));;
       h ← host;
       commandResult ← await (h_dotnet_acquire h minDotNetSdkVersion);
       match commandResult with
       | Some r => mret (acq_dotnetPath r)
       | None => throw (TypeError "commandResult is undefined")
       end);
  appendLine ("Using dotnet from " +:+ dquote +:+ dotnetPath +:+ dquote);;
  mret dotnetPath.

(** [getInteractiveLaunchOptions] (lines 145-152); [undefined] is returned
    as it is. *)
Definition getInteractiveLaunchOptions (dotnetPath : string)
  : M (option InteractiveLaunchOptions) :=
  let installArgs := {| ia_dotnetPath := dotnetPath |} in
  emit (EExecuteCommand "dotnet-interactive.acquire" (InstallInteractiveArg installArgs));;
  h ← host;
  await (h_interactive_acquire h installArgs).

(** What the closures created in [activate] capture: [config] (line 28),
    [dotnetPromise] (line 32) and [diagnosticDelay] (line 65). *)
Record Activation : Type := mkActivation {
  act_config : WorkspaceConfiguration;
  act_dotnetPromise : Result string;
  act_diagnosticDelay : JsValue
}.

(** The factory given to [new ClientMapper] (lines 35-60). *)
Definition kernelTransportCreator (a : Activation) (notebookPath : string)
  : M StdioKernelTransport :=
  appendLine ("Creating client for notebook " +:+ dquote +:+ notebookPath +:+ dquote);;
  dotnetPath ← await (act_dotnetPromise a);
  launchOptions ← getInteractiveLaunchOptions dotnetPath;
  let kernelTransportArgs := config_get (act_config a) "kernelTransportArgs" in
  let argsTemplate :=
    {| tmpl_args := kernelTransportArgs;
       tmpl_workingDirectory := config_get (act_config a) "kernelTransportWorkingDirectory" |} in
  workingDirectory ←
    match launchOptions with
    | Some lo => mret (lo_workingDirectory lo)
    | None => throw (TypeError "launchOptions is undefined")
    end;
  processStart ← await (processArguments argsTemplate notebookPath dotnetPath workingDirectory);
  transport ← new_StdioKernelTransport processStart;
  transport ← waitForReady transport;
  externalUri ← asExternalUri (Uri_parse ("http://localhost:" +:+ port_text (httpPort transport)));
  transport ← setExternalUri transport externalUri;
  mret transport.

(** [config.get<number>('liveDiagnosticDelay') || 500] (line 65) *)
Definition diagnosticDelay (config : WorkspaceConfiguration) : JsValue :=
  js_or (config_get config "liveDiagnosticDelay") (JNumber (number_of_Z 500)).

(** [activate] (lines 24-81).  It has no [await] of its own and runs to its
    end in one go. *)
Definition activate : M Activation :=
  emit (ERegister AcquisitionCommands);;
  config ← getConfiguration "dotnet-interactive";
  emit (ECreateOutputChannel ".NET Interactive : diagnostics");;
  dotnetPromise ← promise_of getDotnetPath;
  let a := {| act_config := config; act_dotnetPromise := dotnetPromise;
              act_diagnosticDelay := diagnosticDelay config |} in
  emit (ERegister KernelCommands);;
  emit (ERegister FileCommands);;
  register_and_push (NotebookContentProvider "dotnet-interactive");;
  register_and_push (NotebookContentProvider "dotnet-interactive-jupyter");;
  register_and_push (NotebookKernelProvider
                       ["dotnet-interactive"; "dotnet-interactive-jupyter"]
                       "*.{dib,dotnet-interactive,ipynb}");;
  register_and_push OnDidChangeActiveNotebookKernel;;
  register_and_push OnDidChangeCellLanguage;;
  register_and_push OnDidCloseNotebookDocument;;
  register_and_push (LanguageProviders (act_diagnosticDelay a));;
  mret a.

(** [deactivate] (lines 83-84) does nothing. *)
Definition deactivate : M unit := mret tt.

(** The listener of line 79: [notebookDocument =>
    clientMapper.closeClient(notebookDocument.uri)], given the mapper's
    [closeClient]. *)
Definition closeListener (closeClient : Uri -> M unit) (notebookDocument : NotebookDocument)
  : M unit :=
  closeClient (doc_uri notebookDocument).

(** [updateCellLanguageInMetadata] (lines 87-100): the document after the
    call, and the edits handed to [vscode.workspace.applyEdit]. *)
Definition updateCellLanguageInMetadata
    (cell : NotebookCell) (document : NotebookDocument) (language : string)
  : NotebookDocument * list WorkspaceEdit :=
  if isDotnetInteractiveLanguage language then
    let cellIndex := findIndex (same_cell cell) (doc_cells document) in
    if (0 <=? cellIndex)%Z then
      let cellMetadata := {| dn_language := Some (getSimpleLanguage language) |} in
      let metadata := withDotNetMetadata (cell_metadata cell) cellMetadata in
      let edit := [ReplaceNotebookCellMetadata (doc_uri document) (Z.to_nat cellIndex) metadata] in
      (applyEdit edit document, [edit])
    else (document, [])
  else (document, []).

(** The body of the loop of lines 111-121. *)
Definition cellData_of (documentLanguageInfo : LanguageInfoMetadata) (cell : NotebookCell)
  : NotebookCellData :=
  let cellMetadata := getDotNetMetadata (cell_metadata cell) in
  let newLanguage := getCellLanguage cellMetadata documentLanguageInfo (cell_language cell) in
  {| cd_cellKind := cell_kind cell;
     cd_source := cell_text cell;
     cd_language := newLanguage;
     cd_outputs := cell_outputs cell;
     cd_metadata := cell_metadata cell |}.

(** [e.kernel?.id === KernelId] (line 103) *)
Definition is_our_kernel (kernel : option NotebookKernel) : bool :=
  match kernel with
  | Some k => match kernel_id k with
              | Some id => String.eqb id KernelId
              | None => false
              end
  | None => false
  end.

(** [updateDocumentLanguages] (lines 102-126): the document after the call,
    and the edits handed to [vscode.workspace.applyEdit]. *)
Definition updateDocumentLanguages
    (document : NotebookDocument) (kernel : option NotebookKernel)
  : NotebookDocument * list WorkspaceEdit :=
  if is_our_kernel kernel then
    let document := set_languages notebookCellLanguages document in
    let documentLanguageInfo := getLanguageInfoMetadata (doc_metadata document) in
    let cellData := map (cellData_of documentLanguageInfo) (doc_cells document) in
    let edit := [ReplaceNotebookCells (doc_uri document) 0 (length (doc_cells document)) cellData] in
    (applyEdit edit document, [edit])
  else (document, []).

End Extension.

(** ** The host fires an event *)

Section Dispatch.
Context `{Imports}.

(** [onDidCloseNotebookDocument] fires for a document: every listener
    subscribed to it is called once, in the order of subscription.  The
    only listener [extension.ts] subscribes is the one of line 79. *)
Fixpoint fire_close (subs : list Registration) (notebookDocument : NotebookDocument) : M unit :=
  match subs with
  | [] => mret tt
  | OnDidCloseNotebookDocument :: rest =>
      closeListener closeClient notebookDocument;;
      fire_close rest notebookDocument
  | _ :: rest => fire_close rest notebookDocument
  end.

Definition fire_onDidCloseNotebookDocument (notebookDocument : NotebookDocument) : M unit :=
  fun h s => fire_close (subscriptions s) notebookDocument h s.

(** A run of client creations after activation: each one under the host
    as it is at that moment, whatever the outcome of the ones before. *)
Fixpoint create_clients (a : Activation) (requests : list (Host * string)) (s : Store) : Store :=
  match requests with
  | [] => s
  | (h, notebookPath) :: rest =>
      create_clients a rest (snd (kernelTransportCreator a notebookPath h s))
  end.

End Dispatch.

(** ** Reading the log *)

Section Runs.
Context `{Imports}.

(** What [getDotnetPath] does under a host: its outcome and its calls. *)
Definition dotnet_outcome (h : Host) : Result string :=
  fst (getDotnetPath h initial_store).

Definition dotnet_events (h : Host) : list Event :=
  log (snd (getDotnetPath h initial_store)).

End Runs.

(** The calls that acquire the dotnet path: the version check and the
    ['dotnet.acquire'] command. *)
Definition is_version_check (e : Event) : bool :=
  match e with
  | EExecute _ _ => true
  | _ => false
  end.

Definition is_dotnet_acquire (e : Event) : bool :=
  match e with
  | EExecuteCommand command _ => String.eqb command "dotnet.acquire"
  | _ => false
  end.

Definition is_getConfiguration (e : Event) : bool :=
  match e with
  | EGetConfiguration _ => true
  | _ => false
  end.

Definition is_languageProviders (e : Event) : bool :=
  match e with
  | ERegister (LanguageProviders _) => true
  | _ => false
  end.

Definition is_closeClient (e : Event) : bool :=
  match e with
  | ECloseClient _ => true
  | _ => false
  end.


(** ** The runs of the factory *)

Section Creation.
Context `{Imports}.
Variables (a : Activation) (notebookPath : string) (h : Host).

(** Line 36. *)
Definition creating_line : Event :=
  EAppendLine ("Creating client for notebook " +:+ dquote +:+ notebookPath +:+ dquote).

(** Line 150. *)
Definition acquire_event (dotnetPath : string) : Event :=
  EExecuteCommand "dotnet-interactive.acquire"
    (InstallInteractiveArg {| ia_dotnetPath := dotnetPath |}).

(** Lines 42-46. *)
Definition argsTemplate_of : ArgsTemplate :=
  {| tmpl_args := config_get (act_config a) "kernelTransportArgs";
     tmpl_workingDirectory := config_get (act_config a) "kernelTransportWorkingDirectory" |}.

(** Lines 38-47: the process to start, or what is thrown on the way. *)
Definition process_start (dotnetPath : string) : Result ProcessStart :=
  match h_interactive_acquire h {| ia_dotnetPath := dotnetPath |} with
  | Ok (Some launchOptions) =>
      processArguments argsTemplate_of notebookPath dotnetPath
        (lo_workingDirectory launchOptions)
  | Ok None => Thrown (TypeError "launchOptions is undefined")
  | Thrown e => Thrown e
  end.

(** What [waitForReady] comes to on a new transport for a process. *)
Definition ready_outcome (processStart : ProcessStart) : Result N :=
  match h_launch h processStart with
  | Ok out => handshake (po_lines out) (po_end out)
  | Thrown e => Thrown e
  end.

(** Line 55. *)
Definition local_uri (port : N) : Uri :=
  Uri_parse ("http://localhost:" +:+ pretty port).

(** The six ways one call of the factory can go, each with the calls it
    makes, its outcome and the number of transports it constructs; [id] is
    the identity the next transport gets. *)
Inductive creation (id : nat) : list Event -> Result StdioKernelTransport -> nat -> Prop :=
| creation_no_dotnet e :
    act_dotnetPromise a = Thrown e ->
    creation id [creating_line] (Thrown e) 0
| creation_no_process_start dotnetPath e :
    act_dotnetPromise a = Ok dotnetPath ->
    process_start dotnetPath = Thrown e ->
    creation id [creating_line; acquire_event dotnetPath] (Thrown e) 0
| creation_not_ready dotnetPath processStart e :
    act_dotnetPromise a = Ok dotnetPath ->
    process_start dotnetPath = Ok processStart ->
    ready_outcome processStart = Thrown e ->
    creation id
      [creating_line; acquire_event dotnetPath; ENewTransport id processStart;
       EWaitForReady id (Thrown e)]
      (Thrown e) 1
| creation_no_external_uri dotnetPath processStart port e :
    act_dotnetPromise a = Ok dotnetPath ->
    process_start dotnetPath = Ok processStart ->
    ready_outcome processStart = Ok port ->
    h_asExternalUri h (local_uri port) = Thrown e ->
    creation id
      [creating_line; acquire_event dotnetPath; ENewTransport id processStart;
       EWaitForReady id (Ok port); EAsExternalUri (local_uri port)]
      (Thrown e) 1
| creation_no_tunnel dotnetPath processStart port external e :
    act_dotnetPromise a = Ok dotnetPath ->
    process_start dotnetPath = Ok processStart ->
    ready_outcome processStart = Ok port ->
    h_asExternalUri h (local_uri port) = Ok external ->
    h_tunnel h external = Thrown e ->
    creation id
      [creating_line; acquire_event dotnetPath; ENewTransport id processStart;
       EWaitForReady id (Ok port); EAsExternalUri (local_uri port);
       ESetExternalUri id external (Thrown e)]
      (Thrown e) 1
| creation_done dotnetPath processStart port external :
    act_dotnetPromise a = Ok dotnetPath ->
    process_start dotnetPath = Ok processStart ->
    ready_outcome processStart = Ok port ->
    h_asExternalUri h (local_uri port) = Ok external ->
    h_tunnel h external = Ok tt ->
    creation id
      [creating_line; acquire_event dotnetPath; ENewTransport id processStart;
       EWaitForReady id (Ok port); EAsExternalUri (local_uri port);
       ESetExternalUri id external (Ok tt)]
      (Ok {| transport_id := id; transport_start := processStart;
             transport_state := TunnelReady; httpPort := Some port;
             externalUri := Some external |}) 1.

End Creation.

(** What a call of the factory may put in the log, for an activation: the
    line of line 36, the acquisition of the kernel tool for the path of
    the promise, a transport for a process made of the template of the
    activation and that same path, and the three calls on the transport. *)
Definition creation_event `{Imports} (a : Activation) (e : Event) : Prop :=
  match e with
  | EAppendLine _ | EWaitForReady _ _ | EAsExternalUri _ | ESetExternalUri _ _ _ => True
  | EExecuteCommand command arg =>
      command = "dotnet-interactive.acquire"
      /\ exists dotnetPath,
           act_dotnetPromise a = Ok dotnetPath
           /\ arg = InstallInteractiveArg {| ia_dotnetPath := dotnetPath |}
  | ENewTransport _ processStart =>
      exists dotnetPath notebookPath workingDirectory,
        act_dotnetPromise a = Ok dotnetPath
        /\ processArguments (argsTemplate_of a) notebookPath dotnetPath workingDirectory
           = Ok processStart
  | _ => False
  end.

(** ** A session to run the model on

    Stand-ins for the imports and for the host, to evaluate the definitions
    above on concrete inputs.  [processArguments] here runs the dotnet path
    with the strings of the template as arguments. *)
Module Scenario.

Definition strings_of (v : JsValue) : list string :=
  match v with
  | JArray items =>
      omap (fun item => match item with JString s => Some s | _ => None end) items
  | _ => []
  end.

#[local] Instance imports : Imports := {|
  KernelId := "dotnet-interactive";
  notebookCellLanguages := ["dotnet-interactive.csharp"; "dotnet-interactive.fsharp"];
  isDotnetInteractiveLanguage := fun language =>
    String.prefix "dotnet-interactive." language;
  getSimpleLanguage := fun language => String.substring 19 (String.length language - 19) language;
  getDotNetMetadata := fun _ => {| dn_language := None |};
  getLanguageInfoMetadata := fun _ => {| li_name := None |};
  getCellLanguage := fun _ _ language => language;
  withDotNetMetadata := fun metadata dotnet =>
    JObject [("dotnet_interactive",
              JObject [("language", from_option JString JUndefined (dn_language dotnet))])];
  processArguments := fun template notebookPath dotnetPath workingDirectory =>
    Ok {| ps_command := dotnetPath; ps_args := strings_of (tmpl_args template);
          ps_workingDirectory := workingDirectory |};
  compareVersions_compare := fun _ _ _ => Ok true
|}.

(** A host whose settings have the given kernel transport arguments and
    diagnostic delay, with dotnet up to date and a kernel that announces
    port 8765 after one line of plain output. *)
Definition host (kernelTransportArgs : list string) (liveDiagnosticDelay : JsValue) : Host :=
  {| h_configuration := fun _ =>
       {| cfg_values :=
            {[ "kernelTransportArgs" := JArray (JString <$> kernelTransportArgs);
               "kernelTransportWorkingDirectory" := JString "{working_dir}";
               "minimumDotNetSdkVersion" := JString "5.0";
               "liveDiagnosticDelay" := liveDiagnosticDelay ]} |};
     h_execute := fun _ _ => Ok {| exec_code := 0; exec_output := "5.0.100" |};
     h_dotnet_acquire := fun _ => Ok None;
     h_interactive_acquire := fun _ => Ok (Some {| lo_workingDirectory := "/storage" |});
     h_launch := fun _ =>
       Ok {| po_lines := [OtherLine "starting"; ReadinessLine 8765];
             po_end := StaysSilent |};
     h_asExternalUri := fun uri => Ok ("https://tunnel.example/" +:+ uri);
     h_tunnel := fun _ => Ok tt |}.

(** Activation under the first settings, a first client under them, and a
    second client once the arguments in the settings have changed. *)
Definition before : Host := host ["old"] (JNumber (number_of_Z 250)).
Definition after : Host := host ["new"] (JNumber (number_of_Z 250)).

Definition activated : Result Activation * Store := activate before initial_store.

Definition session : list (Result StdioKernelTransport) :=
  match activated with
  | (Ok a, s1) =>
      let '(first, s2) := kernelTransportCreator a "/notebooks/a.dib" before s1 in
      let '(second, _) := kernelTransportCreator a "/notebooks/b.dib" after s2 in
      [first; second]
  | (Thrown e, _) => []
  end.

(** The same, through the mapper: the store once the client of a document
    is there. *)
Definition opened : Store :=
  match activated with
  | (Ok a, s1) =>
      snd (getOrCreateClient (kernelTransportCreator a) "/notebooks/a.dib" before s1)
  | (Thrown e, s1) => s1
  end.

Definition document : NotebookDocument :=
  {| doc_uri := "/notebooks/a.dib"; doc_languages := []; doc_metadata := JNull;
     doc_cells := [] |}.

End Scenario.

(** ** The client mapper under concurrent callers *)

(** Modelled from the spec: [getOrCreateClient] with several callers at
    once (sections 4.4, 5, 8 and 9; [clientMapper.ts] is not among the
    sources).  There is a single flow of control, and a caller is suspended
    while the factory runs; so a run is a sequence of steps, each a call of
    [getOrCreateClient] or the settling of a creation in flight.  The mapper
    keeps, besides its table, the "in-flight-creation map guarding factory
    invocation, with only the resolved transport (or failure) stored
    afterward". *)
Module SingleFlight.

Definition Caller : Type := nat.

Record Mapper : Type := mkMapper {
  table : gmap Uri StdioKernelTransport;
  (** the callers suspended on the creation in flight for an identity *)
  inflight : gmap Uri (list Caller);
  (** the invocations of the factory, one subprocess launch each *)
  launches : list Uri;
  (** what each call has come back with *)
  observed : list (Caller * Uri * Result StdioKernelTransport)
}.

Definition empty : Mapper :=
  {| table := ∅; inflight := ∅; launches := []; observed := [] |}.

Inductive Step : Type :=
| Call (c : Caller) (documentIdentity : Uri)
| Settle (documentIdentity : Uri) (outcome : Result StdioKernelTransport).

(** Modelled from the spec: one step of the mapper (section 4.4): a call
    "returns the existing transport if present; otherwise invokes the
    injected factory exactly once for that identity even if called
    concurrently from multiple callers"; when the creation settles the
    mapper "stores the result, and returns it", and "if factory creation
    fails, the failure is surfaced to all concurrent callers and the key is
    NOT cached". *)
Definition step (m : Mapper) (st : Step) : Mapper :=
  match st with
  | Call c d =>
      match table m !! d with
      | Some t =>
          (* "returns the existing transport if present" *)
          {| table := table m; inflight := inflight m; launches := launches m;
             observed := observed m ++ [(c, d, Ok t)] |}
      | None =>
          match inflight m !! d with
          | Some waiting =>
              (* a creation is in flight: the caller waits for it *)
              {| table := table m; inflight := <[d := waiting ++ [c]]> (inflight m);
                 launches := launches m; observed := observed m |}
          | None =>
              (* "otherwise invokes the injected factory" *)
              {| table := table m; inflight := <[d := [c]]> (inflight m);
                 launches := launches m ++ [d]; observed := observed m |}
          end
      end
  | Settle d outcome =>
      match inflight m !! d with
      | Some waiting =>
          {| table := match outcome with
                      | Ok t => <[d := t]> (table m)   (* "stores the result" *)
                      | Thrown _ => table m            (* "the key is NOT cached" *)
                      end;
             inflight := delete d (inflight m);
             launches := launches m;
             observed := observed m ++ map (fun c => (c, d, outcome)) waiting |}
      | None => m
      end
  end.

Definition run (m : Mapper) (schedule : list Step) : Mapper := foldl step m schedule.

(** The steps of a schedule that are about an identity. *)
Definition about (d : Uri) (st : Step) : bool :=
  match st with
  | Call _ d' | Settle d' _ => String.eqb d' d
  end.

Definition settles (d : Uri) (st : Step) : bool :=
  match st with
  | Settle d' _ => String.eqb d' d
  | Call _ _ => false
  end.

(** The callers of [getOrCreateClient d] in a schedule, in order. *)
Fixpoint callers_of (d : Uri) (schedule : list Step) : list Caller :=
  match schedule with
  | [] => []
  | Call c d' :: rest =>
      if String.eqb d' d then c :: callers_of d rest else callers_of d rest
  | Settle _ _ :: rest => callers_of d rest
  end.

(** What the mapper has done about an identity. *)
Definition launches_of (d : Uri) (m : Mapper) : list Uri :=
  filter (fun d' => d' = d) (launches m).

Definition observed_of (d : Uri) (m : Mapper)
  : list (Caller * Uri * Result StdioKernelTransport) :=
  filter (fun o => o.1.2 = d) (observed m).

End SingleFlight.

(** ** More of the session *)

Section Outcomes.
Context `{Imports}.

(** The outcomes of a run of creations, in order; [create_clients] is the
    store it ends in. *)
Fixpoint create_outcomes (a : Activation) (requests : list (Host * string)) (s : Store)
  : list (Result StdioKernelTransport) :=
  match requests with
  | [] => []
  | (h, notebookPath) :: rest =>
      fst (kernelTransportCreator a notebookPath h s)
        :: create_outcomes a rest (snd (kernelTransportCreator a notebookPath h s))
  end.

End Outcomes.

Definition is_interactive_acquire (e : Event) : bool :=
  match e with
  | EExecuteCommand command _ => String.eqb command "dotnet-interactive.acquire"
  | _ => false
  end.

Definition is_executeCommand (e : Event) : bool :=
  match e with
  | EExecuteCommand _ _ => true
  | _ => false
  end.

Definition is_newTransport (e : Event) : bool :=
  match e with
  | ENewTransport _ _ => true
  | _ => false
  end.

Definition is_dispose (e : Event) : bool :=
  match e with
  | EDispose _ => true
  | _ => false
  end.

Definition is_appendLine (e : Event) : bool :=
  match e with
  | EAppendLine _ => true
  | _ => false
  end.

(** The fields of a cell that [replaceNotebookCellMetadata] leaves alone. *)
Definition cell_but_metadata (c : NotebookCell)
  : nat * CellKind * string * string * list JsValue :=
  (cell_handle c, cell_kind c, cell_text c, cell_language c, cell_outputs c).

(** ** The runs of [getDotnetPath] *)

Section Acquisition.
Context `{Imports}.
Variable h : Host.

(** Line 132. *)
Definition minimum_version : JsValue :=
  config_get (h_configuration h "dotnet-interactive") "minimumDotNetSdkVersion".

(** Line 137. *)
Definition dotnet_acquire_event : Event :=
  EExecuteCommand "dotnet.acquire"
    (DotnetAcquireArg minimum_version "ms-dotnettools.dotnet-interactive-vscode").

(** Line 141. *)
Definition using_line (dotnetPath : string) : Event :=
  EAppendLine ("Using dotnet from " +:+ dquote +:+ dotnetPath +:+ dquote).

(** [dotnet --version] ran and the dotnet found is not up to date: its exit
    code is not 0, or its version is below the minimum. *)
Definition not_up_to_date (result : ExecResult) : Prop :=
  exec_code result <> 0%Z
  \/ (exec_code result = 0%Z
      /\ compareVersions_compare (exec_output result) minimum_version ">=" = Ok false).

(** The six ways [getDotnetPath] can go, each with its calls and outcome. *)
Inductive acquisition : list Event -> Result string -> Prop :=
| acquisition_no_version e :
    h_execute h "dotnet" ["--version"] = Thrown e ->
    acquisition
      [EGetConfiguration "dotnet-interactive"; EExecute "dotnet" ["--version"]]
      (Thrown e)
| acquisition_no_comparison result e :
    h_execute h "dotnet" ["--version"] = Ok result ->
    exec_code result = 0%Z ->
    compareVersions_compare (exec_output result) minimum_version ">=" = Thrown e ->
    acquisition
      [EGetConfiguration "dotnet-interactive"; EExecute "dotnet" ["--version"]]
      (Thrown e)
| acquisition_up_to_date result :
    h_execute h "dotnet" ["--version"] = Ok result ->
    exec_code result = 0%Z ->
    compareVersions_compare (exec_output result) minimum_version ">=" = Ok true ->
    acquisition
      [EGetConfiguration "dotnet-interactive"; EExecute "dotnet" ["--version"];
       using_line "dotnet"]
      (Ok "dotnet")
| acquisition_failed result e :
    h_execute h "dotnet" ["--version"] = Ok result ->
    not_up_to_date result ->
    h_dotnet_acquire h minimum_version = Thrown e ->
    acquisition
      [EGetConfiguration "dotnet-interactive"; EExecute "dotnet" ["--version"];
       dotnet_acquire_event]
      (Thrown e)
| acquisition_undefined result :
    h_execute h "dotnet" ["--version"] = Ok result ->
    not_up_to_date result ->
    h_dotnet_acquire h minimum_version = Ok None ->
    acquisition
      [EGetConfiguration "dotnet-interactive"; EExecute "dotnet" ["--version"];
       dotnet_acquire_event]
      (Thrown (TypeError "commandResult is undefined"))
| acquisition_done result acquired :
    h_execute h "dotnet" ["--version"] = Ok result ->
    not_up_to_date result ->
    h_dotnet_acquire h minimum_version = Ok (Some acquired) ->
    acquisition
      [EGetConfiguration "dotnet-interactive"; EExecute "dotnet" ["--version"];
       dotnet_acquire_event; using_line (acq_dotnetPath acquired)]
      (Ok (acq_dotnetPath acquired)).

End Acquisition.

(** ** Hosts on which something fails *)
Module Failures.

(** [dotnet --version] exits with code 1 and ['dotnet.acquire'] resolves to
    [undefined]. *)
Definition no_dotnet : Host :=
  {| h_configuration := h_configuration Scenario.before;
     h_execute := fun _ _ => Ok {| exec_code := 1; exec_output := "" |};
     h_dotnet_acquire := fun _ => Ok None;
     h_interactive_acquire := h_interactive_acquire Scenario.before;
     h_launch := h_launch Scenario.before;
     h_asExternalUri := h_asExternalUri Scenario.before;
     h_tunnel := h_tunnel Scenario.before |}.

(** ['dotnet-interactive.acquire'] resolves to [undefined]. *)
Definition no_launch_options : Host :=
  {| h_configuration := h_configuration Scenario.before;
     h_execute := h_execute Scenario.before;
     h_dotnet_acquire := h_dotnet_acquire Scenario.before;
     h_interactive_acquire := fun _ => Ok None;
     h_launch := h_launch Scenario.before;
     h_asExternalUri := h_asExternalUri Scenario.before;
     h_tunnel := h_tunnel Scenario.before |}.

(** The kernel is ready, but the tunnel cannot be established. *)
Definition no_tunnel : Host :=
  {| h_configuration := h_configuration Scenario.before;
     h_execute := h_execute Scenario.before;
     h_dotnet_acquire := h_dotnet_acquire Scenario.before;
     h_interactive_acquire := h_interactive_acquire Scenario.before;
     h_launch := h_launch Scenario.before;
     h_asExternalUri := h_asExternalUri Scenario.before;
     h_tunnel := fun _ => Thrown (Rejected "no tunnel") |}.

(** An activation whose promise of the dotnet path is resolved. *)
Definition activation : Activation :=
  {| act_config := h_configuration Scenario.before "dotnet-interactive";
     act_dotnetPromise := Ok "dotnet";
     act_diagnosticDelay := JNumber (number_of_Z 500) |}.

End Failures.

(** * Verification *)

Arguments number_of_Z : simpl never.
Arguments diagnosticDelay : simpl never.
Arguments dotnet_outcome : simpl never.
Arguments dotnet_events : simpl never.
Arguments pretty : simpl never.

(** ** Stores *)

Lemma store_eq (s1 s2 : Store) :
  log s1 = log s2 -> next_transport s1 = next_transport s2 ->
  subscriptions s1 = subscriptions s2 -> clientMap s1 = clientMap s2 ->
  s1 = s2.
Proof. destruct s1, s2; simpl; intros; by subst. Qed.

(** Unfold the monad and the calls on the host, one binding after the
    other; [stores] then reads the fields of the store reached. *)
Ltac run :=
  unfold register_and_push, getConfiguration, appendLine, execute, asExternalUri;
  unfold mbind, mret, M_bind, M_ret, emit, host, await, throw, subscribe,
    promise_of, fresh_transport_id, get_clientMap, set_clientMap;
  cbv beta iota zeta.

Ltac stores :=
  cbn [fst snd log next_transport subscriptions clientMap initial_store
       add_log add_subscription bump_transport with_clientMap];
  rewrite <- ?app_assoc; cbn [app].

Ltac cases := repeat (case_match; simplify_eq; cbv beta iota zeta in *).

(** Questions on an event at some index of an explicit log. *)
Ltac lookups :=
  let i := fresh "i" in
  intros i; intros;
  repeat (destruct i as [|i]; simplify_eq/=);
  eauto; try congruence.

(** An event is not among the events of an explicit log it differs from. *)
Ltac not_among H :=
  repeat (apply elem_of_cons in H as [H | H]; [discriminate H|]);
  by apply elem_of_nil in H.

(** ** Lists *)

Lemma findIndex_spec {A : Type} (p : A -> bool) (l : list A) :
  (findIndex p l = (-1)%Z /\ Forall (fun x => p x = false) l)
  \/ (exists i x, findIndex p l = Z.of_nat i /\ l !! i = Some x /\ p x = true
                  /\ Forall (fun y => p y = false) (take i l)).
Proof.
  induction l as [|a l IH]; simpl.
  - left. split; [reflexivity | constructor].
  - destruct (p a) eqn:Hpa.
    + right. exists 0, a. repeat split; done.
    + destruct IH as [[Hn Hall] | (i & x & Hi & Hx & Hpx & Hall)].
      * left. rewrite Hn. simpl. split; [reflexivity | by constructor].
      * right. exists (S i), x. rewrite Hi.
        destruct (Z.of_nat i <? 0)%Z eqn:Hlt; [lia|].
        repeat split; try done; [lia|]. simpl. by constructor.
Qed.

Lemma cells_of_data_data (handle : nat) (data : list NotebookCellData) :
  map cell_data (cells_of_data handle data) = data.
Proof.
  revert handle. induction data as [|d data IH]; intros handle; simpl.
  - reflexivity.
  - rewrite IH. by destruct d.
Qed.

(** ** [getDotnetPath] and [activate] *)

Section Activate.
Context `{Imports}.

Lemma getDotnetPath_run (h : Host) (s : Store) :
  getDotnetPath h s = (dotnet_outcome h, add_log s (dotnet_events h)).
Proof.
  unfold dotnet_outcome, dotnet_events, getDotnetPath, isDotnetUpToDate.
  run. cases; (f_equal; apply store_eq; stores; reflexivity).
Qed.

(** The whole of [activate]: it returns, with the configuration of the
    moment, the settled promise of [getDotnetPath] and the delay; its calls
    and its seven subscriptions are these. *)
Lemma activate_run (h : Host) (s : Store) :
  let config := h_configuration h "dotnet-interactive" in
  let delay := diagnosticDelay config in
  activate h s =
  (Ok {| act_config := config; act_dotnetPromise := dotnet_outcome h;
         act_diagnosticDelay := delay |},
   {| log := log s
        ++ [ERegister AcquisitionCommands; EGetConfiguration "dotnet-interactive";
            ECreateOutputChannel ".NET Interactive : diagnostics"]
        ++ dotnet_events h
        ++ [ERegister KernelCommands; ERegister FileCommands;
            ERegister (NotebookContentProvider "dotnet-interactive");
            ERegister (NotebookContentProvider "dotnet-interactive-jupyter");
            ERegister (NotebookKernelProvider
                         ["dotnet-interactive"; "dotnet-interactive-jupyter"]
                         "*.{dib,dotnet-interactive,ipynb}");
            ERegister OnDidChangeActiveNotebookKernel;
            ERegister OnDidChangeCellLanguage;
            ERegister OnDidCloseNotebookDocument;
            ERegister (LanguageProviders delay)];
      next_transport := next_transport s;
      subscriptions := subscriptions s
        ++ [NotebookContentProvider "dotnet-interactive";
            NotebookContentProvider "dotnet-interactive-jupyter";
            NotebookKernelProvider
              ["dotnet-interactive"; "dotnet-interactive-jupyter"]
              "*.{dib,dotnet-interactive,ipynb}";
            OnDidChangeActiveNotebookKernel; OnDidChangeCellLanguage;
            OnDidCloseNotebookDocument; LanguageProviders delay];
      clientMap := clientMap s |}).
Proof.
  unfold activate. run. rewrite getDotnetPath_run.
  f_equal. apply store_eq; stores; reflexivity.
Qed.

(** The calls of [getDotnetPath]: the configuration is obtained, the
    version checked, then at most one ['dotnet.acquire'] command and at most
    one line on the diagnostics channel. *)
Lemma dotnet_events_shape (h : Host) :
  exists acquire line,
    dotnet_events h
    = [EGetConfiguration "dotnet-interactive"; EExecute "dotnet" ["--version"]]
        ++ acquire ++ line
    /\ (acquire = []
        \/ exists v, acquire = [EExecuteCommand "dotnet.acquire"
                                  (DotnetAcquireArg v "ms-dotnettools.dotnet-interactive-vscode")])
    /\ (line = [] \/ exists l, line = [EAppendLine l]).
Proof.
  unfold dotnet_events, getDotnetPath, isDotnetUpToDate.
  run. cases; stores.
  all: first [ by (eexists [], []; eauto)
             | by (eexists [], [_]; split; [reflexivity | eauto])
             | by (eexists [_], []; split; [reflexivity | eauto 6])
             | by (eexists [_], [_]; split; [reflexivity | eauto 6]) ].
Qed.

Lemma dotnet_events_no_languageProviders (h : Host) :
  filter is_languageProviders (dotnet_events h) = [].
Proof.
  destruct (dotnet_events_shape h) as (acq & line & -> & [-> | [v ->]] & [-> | [l ->]]);
    reflexivity.
Qed.

End Activate.

(** ** The diagnostic delay *)

Section DiagnosticDelay.
Context `{Imports}.

(** C10: [activate] registers the language providers once, and the delay it
    passes is 500 when the setting ['liveDiagnosticDelay'] is absent,
    [undefined], [null], [false], a zero, [NaN] or the empty string, and
    the value of the setting otherwise. *)
Theorem liveDiagnosticDelay_fallback (h : Host) (s : Store) :
  let config := h_configuration h "dotnet-interactive" in
  let s' := snd (activate h s) in
  exists delay,
    filter is_languageProviders (log s')
    = filter is_languageProviders (log s) ++ [ERegister (LanguageProviders delay)]
    /\ match cfg_values config !! "liveDiagnosticDelay" with
       | None
       | Some JUndefined | Some JNull | Some (JBool false)
       | Some (JNumber (S754_zero _)) | Some (JNumber S754_nan)
       | Some (JString "") => delay = JNumber (number_of_Z 500)
       | Some v => delay = v
       end.
Proof.
  intros config s'. subst s'. rewrite activate_run. cbn [snd log].
  exists (diagnosticDelay config). split.
  - rewrite !filter_app, dotnet_events_no_languageProviders. reflexivity.
  - unfold diagnosticDelay, js_or, config_get. fold config.
    destruct (cfg_values config !! "liveDiagnosticDelay") as [v|]; [|reflexivity].
    destruct v as [| |[]|[]|[|]| |]; reflexivity.
Qed.

End DiagnosticDelay.

(** ** The two language handlers *)

Section Languages.
Context `{Imports}.

Lemma is_our_kernel_spec (kernel : option NotebookKernel) :
  is_our_kernel kernel = true <-> kernel ≫= kernel_id = Some KernelId.
Proof.
  unfold is_our_kernel. destruct kernel as [[[id|]]|]; simpl; try done.
  rewrite String.eqb_eq. split; congruence.
Qed.

(** C4: when the kernel of the event is the extension's ([KernelId]),
    [updateDocumentLanguages] applies one edit, which replaces the cells
    [0 .. length-1] of the document; the cells after it are as many as
    before and each has the kind, text, outputs and metadata of the cell it
    replaces, its language being [getCellLanguage] of the cell's metadata,
    the document's language info and the cell's former language.  When the
    event has no kernel, or one with no id or another id, no edit is
    applied and the document is the same. *)
Theorem updateDocumentLanguages_only_language
    (document : NotebookDocument) (kernel : option NotebookKernel) :
  let '(document', edits) := updateDocumentLanguages document kernel in
  if decide (kernel ≫= kernel_id = Some KernelId) then
    (exists data,
        edits = [[ReplaceNotebookCells (doc_uri document) 0
                    (length (doc_cells document)) data]]
        /\ map cell_data (doc_cells document') = data)
    /\ Forall2 (fun c c' =>
                  cell_kind c' = cell_kind c
                  /\ cell_text c' = cell_text c
                  /\ cell_outputs c' = cell_outputs c
                  /\ cell_metadata c' = cell_metadata c
                  /\ cell_language c'
                     = getCellLanguage (getDotNetMetadata (cell_metadata c))
                         (getLanguageInfoMetadata (doc_metadata document))
                         (cell_language c))
         (doc_cells document) (doc_cells document')
    /\ doc_uri document' = doc_uri document
    /\ doc_metadata document' = doc_metadata document
    /\ doc_languages document' = notebookCellLanguages
  else edits = [] /\ document' = document.
Proof.
  unfold updateDocumentLanguages.
  destruct (is_our_kernel kernel) eqn:Hk.
  - apply is_our_kernel_spec in Hk. rewrite decide_True by done.
    unfold applyEdit. cbn [foldl apply_edit set_languages doc_uri doc_cells doc_metadata].
    rewrite String.eqb_refl. cbn [set_cells doc_cells doc_uri doc_metadata doc_languages].
    rewrite take_0, drop_all, app_nil_l, app_nil_r.
    split; [|split; [|done]].
    + eexists. split; [reflexivity|]. apply cells_of_data_data.
    + generalize (fresh_handle (doc_cells document)).
      induction (doc_cells document) as [|c cells IH]; intros handle; simpl.
      * constructor.
      * constructor; [done | apply IH].
  - rewrite decide_False; [done|].
    intros Hid. apply is_our_kernel_spec in Hid. congruence.
Qed.

(** C5: [updateCellLanguageInMetadata] applies an edit exactly when the
    language of the event is a dotnet-interactive one and the document has
    the cell of the event.  The edit then is one
    [replaceNotebookCellMetadata], at the first index [i] that holds the
    cell, with the cell's metadata under [withDotNetMetadata] for the
    language [getSimpleLanguage language]; after it the cell at [i] differs
    in its metadata only and the rest of the document is the same.  In the
    other cases there is no edit and the document is the same. *)
Theorem updateCellLanguageInMetadata_edit
    (cell : NotebookCell) (document : NotebookDocument) (language : string) :
  let '(document', edits) := updateCellLanguageInMetadata cell document language in
  let metadata :=
    withDotNetMetadata (cell_metadata cell)
      {| dn_language := Some (getSimpleLanguage language) |} in
  if decide (isDotnetInteractiveLanguage language = true
             /\ cell_handle cell ∈ map cell_handle (doc_cells document))
  then
    exists i c,
      doc_cells document !! i = Some c
      /\ cell_handle c = cell_handle cell
      /\ (forall j c', j < i -> doc_cells document !! j = Some c' ->
                       cell_handle c' <> cell_handle cell)
      /\ edits = [[ReplaceNotebookCellMetadata (doc_uri document) i metadata]]
      /\ doc_cells document' = <[i := set_cell_metadata metadata c]> (doc_cells document)
      /\ doc_uri document' = doc_uri document
      /\ doc_metadata document' = doc_metadata document
      /\ doc_languages document' = doc_languages document
  else edits = [] /\ document' = document.
Proof.
  unfold updateCellLanguageInMetadata.
  destruct (isDotnetInteractiveLanguage language) eqn:Hlang.
  - destruct (findIndex_spec (same_cell cell) (doc_cells document))
      as [[Hn Hall] | (i & c & Hi & Hc & Hp & Hbefore)].
    + rewrite Hn. simpl. rewrite decide_False; [done|].
      intros [_ Hin]. apply list_elem_of_fmap in Hin as (c & Hc & Hin).
      rewrite Forall_forall in Hall. specialize (Hall c Hin).
      unfold same_cell in Hall. apply Nat.eqb_neq in Hall. congruence.
    + rewrite Hi. destruct (0 <=? Z.of_nat i)%Z eqn:Hle; [|lia].
      rewrite Nat2Z.id. unfold same_cell in Hp. apply Nat.eqb_eq in Hp.
      rewrite decide_True.
      2:{ split; [done|]. apply list_elem_of_fmap. exists c. split; [done|].
          by apply list_elem_of_lookup_2 in Hc. }
      exists i, c. unfold applyEdit. cbn [foldl apply_edit].
      rewrite String.eqb_refl. cbn [set_cells doc_cells doc_uri doc_metadata doc_languages].
      repeat split; try done.
      * intros j c' Hj Hc' Heq. rewrite Forall_forall in Hbefore.
        assert (Hin : c' ∈ take i (doc_cells document)).
        { apply list_elem_of_lookup. exists j. rewrite lookup_take_lt; done. }
        specialize (Hbefore c' Hin). unfold same_cell in Hbefore.
        apply Nat.eqb_neq in Hbefore. done.
      * apply list_eq. intros j. destruct (decide (j = i)) as [->|Hne].
        -- rewrite list_lookup_alter_eq, Hc.
           rewrite list_lookup_insert_eq; [done|]. by apply lookup_lt_Some in Hc.
        -- rewrite list_lookup_alter_ne, list_lookup_insert_ne; done.
  - rewrite decide_False; [done|]. intros [? _]. done.
Qed.

End Languages.

(** ** The handshake *)

(** The handshake gives a port exactly when the first line that is not
    plain output is a readiness line, and the port is the one of that line. *)
Lemma handshake_ok (lines : list StdoutLine) (fin : StreamEnd) (port : N) :
  handshake lines fin = Ok port
  <-> exists before after,
        lines = before ++ ReadinessLine port :: after
        /\ Forall (fun l => exists text, l = OtherLine text) before.
Proof.
  induction lines as [|l lines IH]; simpl.
  - split.
    + by destruct fin.
    + intros (before & after & Heq & _). by destruct before.
  - destruct l as [p|text|text].
    + split.
      * intros [= ->]. exists [], lines. split; [done | constructor].
      * intros (before & after & Heq & Hall). destruct before as [|b before].
        -- by simplify_eq/=.
        -- simplify_eq/=. apply Forall_cons in Hall as [[text [=]] _].
    + split; [done|].
      intros (before & after & Heq & Hall). destruct before as [|b before].
      * by simplify_eq/=.
      * simplify_eq/=. apply Forall_cons in Hall as [[t [=]] _].
    + rewrite IH. split.
      * intros (before & after & -> & Hall).
        exists (OtherLine text :: before), after. split; [done|].
        constructor; eauto.
      * intros (before & after & Heq & Hall). destruct before as [|b before].
        -- by simplify_eq/=.
        -- simplify_eq/=. apply Forall_cons in Hall as [_ Hall]. eauto.
Qed.

(** ** The factory *)

Section Factory.
Context `{Imports}.

(** Every call of the factory goes one of the six ways of [creation]. *)
Lemma kernelTransportCreator_creation (a : Activation) (notebookPath : string)
    (h : Host) (s : Store) :
  exists events n,
    creation a notebookPath h (next_transport s) events
      (fst (kernelTransportCreator a notebookPath h s)) n
    /\ log (snd (kernelTransportCreator a notebookPath h s)) = log s ++ events
    /\ next_transport (snd (kernelTransportCreator a notebookPath h s))
       = n + next_transport s
    /\ subscriptions (snd (kernelTransportCreator a notebookPath h s)) = subscriptions s
    /\ clientMap (snd (kernelTransportCreator a notebookPath h s)) = clientMap s.
Proof.
  unfold kernelTransportCreator, getInteractiveLaunchOptions, setExternalUri,
    waitForReady, new_StdioKernelTransport.
  run. cbn [transport_state transport_id transport_start httpPort externalUri].
  assert (Hstart : forall lo processStart dotnetPath,
             h_interactive_acquire h {| ia_dotnetPath := dotnetPath |} = Ok (Some lo) ->
             processArguments (argsTemplate_of a) notebookPath dotnetPath
               (lo_workingDirectory lo) = processStart ->
             process_start a notebookPath h dotnetPath = processStart).
  { intros lo ps dp Hacq Hargs. unfold process_start. by rewrite Hacq. }
  destruct (act_dotnetPromise a) as [dotnetPath|e] eqn:Hdotnet.
  2:{ do 2 eexists. split; [by apply creation_no_dotnet|]. stores. done. }
  destruct (h_interactive_acquire h {| ia_dotnetPath := dotnetPath |})
    as [[lo|]|e] eqn:Hacq; cbv beta iota zeta.
  2,3: do 2 eexists; (split;
         [ eapply creation_no_process_start;
           [done | unfold process_start; by rewrite Hacq]
         | stores; done ]).
  fold (argsTemplate_of a).
  destruct (processArguments (argsTemplate_of a) notebookPath dotnetPath
              (lo_workingDirectory lo)) as [processStart|e] eqn:Hargs.
  2:{ do 2 eexists. split; [eapply creation_no_process_start; eauto|]. stores. done. }
  cbn [next_transport add_log bump_transport
       transport_state transport_id transport_start httpPort externalUri].
  fold (ready_outcome h processStart).
  destruct (ready_outcome h processStart) as [port|e] eqn:Hready.
  2:{ do 2 eexists. split; [eapply creation_not_ready; eauto|]. stores. done. }
  cbn [transport_state transport_id transport_start httpPort externalUri port_text].
  fold (local_uri port).
  destruct (h_asExternalUri h (local_uri port)) as [external|e] eqn:Hext.
  2:{ do 2 eexists. split; [eapply creation_no_external_uri; eauto|]. stores. done. }
  cbn [transport_state transport_id transport_start httpPort externalUri].
  destruct (h_tunnel h external) as [[]|e] eqn:Htunnel.
  - do 2 eexists. split; [eapply creation_done; eauto|]. stores. done.
  - do 2 eexists. split; [eapply creation_no_tunnel; eauto|]. stores. done.
Qed.

(** C2: in every call of the factory, [waitForReady] is called on the
    transport right after it is constructed; [setExternalUri] is called only
    on a transport whose [waitForReady] has resolved before, and it is
    called whenever [waitForReady] and [asExternalUri] have resolved.  When
    the factory returns a transport, the last three calls are
    [waitForReady] (resolved), [asExternalUri] and [setExternalUri]
    (resolved) on that transport, in this order, and the transport has its
    external URI: its endpoint is never the local one. *)
Theorem factory_ready_then_external_uri (a : Activation) (notebookPath : string)
    (h : Host) (s : Store) :
  let r := fst (kernelTransportCreator a notebookPath h s) in
  let s' := snd (kernelTransportCreator a notebookPath h s) in
  exists events,
    log s' = log s ++ events
    /\ (forall i id processStart,
          events !! i = Some (ENewTransport id processStart) ->
          exists outcome, events !! (S i) = Some (EWaitForReady id outcome))
    /\ (forall i id uri outcome,
          events !! i = Some (ESetExternalUri id uri outcome) ->
          exists j port, j < i /\ events !! j = Some (EWaitForReady id (Ok port)))
    /\ (forall i id port external,
          events !! i = Some (EWaitForReady id (Ok port)) ->
          h_asExternalUri h (local_uri port) = Ok external ->
          exists outcome, events !! (S (S i)) = Some (ESetExternalUri id external outcome))
    /\ match r with
       | Ok t =>
           exists before port external,
             events = before ++ [EWaitForReady (transport_id t) (Ok port);
                                 EAsExternalUri (local_uri port);
                                 ESetExternalUri (transport_id t) external (Ok tt)]
             /\ last before = Some (ENewTransport (transport_id t) (transport_start t))
             /\ transport_state t = TunnelReady
             /\ externalUri t = Some external
             /\ endpoint_uri t = external
       | Thrown _ => True
       end.
Proof.
  intros r s'. subst r s'.
  destruct (kernelTransportCreator_creation a notebookPath h s)
    as (events & n & Hrun & Hlog & _).
  exists events. split; [done|].
  destruct Hrun; unfold creating_line, acquire_event in *; (split; [|split; [|split]]).
  all: try done.
  all: try by lookups.
  all: try by (lookups; exists 3; eexists; split; [lia | done]).
  all: try by (lookups;
               match goal with
               | Ha : h_asExternalUri _ _ = Ok ?x, Hb : h_asExternalUri _ _ = Ok ?y |- _ =>
                   assert (x = y) by congruence; subst; eauto
               end).
  cbn [fst].
  eexists [_; _; _], port, external. cbn [transport_id transport_start].
  repeat split; reflexivity.
Qed.

(** C3: whenever [waitForReady] resolves in the factory, the next call is
    [asExternalUri] on the URI parsed from ['http://localhost:'] followed by
    the port of the transport, and that port is the one of the readiness
    line, the first line of the subprocess that is not plain output.  A
    transport the factory returns has this port, and [localhost:<port>] for
    local endpoint. *)
Theorem external_uri_of_negotiated_port (a : Activation) (notebookPath : string)
    (h : Host) (s : Store) :
  let r := fst (kernelTransportCreator a notebookPath h s) in
  let s' := snd (kernelTransportCreator a notebookPath h s) in
  exists events,
    log s' = log s ++ events
    /\ (forall i id port,
          events !! i = Some (EWaitForReady id (Ok port)) ->
          events !! (S i)
          = Some (EAsExternalUri (Uri_parse ("http://localhost:" +:+ pretty port)))
          /\ exists processStart out before after,
               ENewTransport id processStart ∈ events
               /\ h_launch h processStart = Ok out
               /\ po_lines out = before ++ ReadinessLine port :: after
               /\ Forall (fun l => exists text, l = OtherLine text) before)
    /\ match r with
       | Ok t =>
           exists port,
             EWaitForReady (transport_id t) (Ok port) ∈ events
             /\ httpPort t = Some port
             /\ local_endpoint t = "localhost:" +:+ pretty port
       | Thrown _ => True
       end.
Proof.
  intros r s'. subst r s'.
  destruct (kernelTransportCreator_creation a notebookPath h s)
    as (events & n & Hrun & Hlog & _).
  exists events. split; [done|].
  assert (Hport : forall processStart port,
             ready_outcome h processStart = Ok port ->
             exists out before after,
               h_launch h processStart = Ok out
               /\ po_lines out = before ++ ReadinessLine port :: after
               /\ Forall (fun l => exists text, l = OtherLine text) before).
  { intros ps port Hready. unfold ready_outcome in Hready.
    destruct (h_launch h ps) as [out|]; [|done].
    apply handshake_ok in Hready as (before & after & ? & ?). eauto 6. }
  destruct Hrun; unfold creating_line, acquire_event in *; split; try done.
  all: try by lookups.
  all: try (intros i id port' Hi; repeat (destruct i as [|i]; simplify_eq/=);
            split; [reflexivity|];
            match goal with
            | Hr : ready_outcome _ ?ps = Ok _ |- _ =>
                destruct (Hport _ _ Hr) as (out & before & after & ? & ? & ?);
                exists ps, out, before, after; split; [set_solver | done]
            end).
  cbn [fst]. exists port. split; [set_solver | done].
Qed.

End Factory.

(** ** Sessions: activation, then client creations *)

Section Session.
Context `{Imports}.

Lemma creation_events (a : Activation) (notebookPath : string) (h : Host)
    (id : nat) (events : list Event) (r : Result StdioKernelTransport) (n : nat) :
  creation a notebookPath h id events r n -> Forall (creation_event a) events.
Proof.
  assert (Hstart : forall dotnetPath processStart,
             process_start a notebookPath h dotnetPath = Ok processStart ->
             exists workingDirectory,
               processArguments (argsTemplate_of a) notebookPath dotnetPath
                 workingDirectory = Ok processStart).
  { intros dp ps. unfold process_start. intros Hps. cases; eauto. }
  destruct 1; unfold creating_line, acquire_event;
    repeat (apply Forall_cons; split); try apply Forall_nil; simpl; eauto.
  all: match goal with
       | Hps : process_start _ _ _ _ = Ok _ |- _ =>
           destruct (Hstart _ _ Hps) as [wd Hwd]; eauto 6
       end.
Qed.

(** A run of creations only adds calls of the factory to the log, and
    leaves the subscriptions and the table alone. *)
Lemma create_clients_events (a : Activation) (requests : list (Host * string)) (s : Store) :
  exists events,
    log (create_clients a requests s) = log s ++ events
    /\ Forall (creation_event a) events
    /\ subscriptions (create_clients a requests s) = subscriptions s
    /\ clientMap (create_clients a requests s) = clientMap s.
Proof.
  revert s. induction requests as [|[h notebookPath] requests IH]; intros s; simpl.
  - exists []. by rewrite app_nil_r.
  - destruct (kernelTransportCreator_creation a notebookPath h s)
      as (events & n & Hrun & Hlog & _ & Hsubs & Hmap).
    destruct (IH (snd (kernelTransportCreator a notebookPath h s)))
      as (rest & Hlog' & Hall & Hsubs' & Hmap').
    exists (events ++ rest). rewrite Hlog', Hlog, Hsubs', Hmap', app_assoc.
    repeat split; try done.
    apply Forall_app. split; [|done]. by eapply creation_events.
Qed.

Lemma creation_event_filters (a : Activation) (events : list Event) :
  Forall (creation_event a) events ->
  filter is_version_check events = []
  /\ filter is_dotnet_acquire events = []
  /\ filter is_getConfiguration events = [].
Proof.
  induction 1 as [|e events He _ (IH1 & IH2 & IH3)]; [done|].
  rewrite !filter_cons, IH1, IH2, IH3.
  destruct e; simpl in He; try done; try destruct He as [-> _];
    repeat split; reflexivity.
Qed.

(** C9: in a session, that is an activation followed by any number of
    client creations under any hosts, the version check of [getDotnetPath]
    runs once and its ['dotnet.acquire'] command at most once, however many
    clients are created; the promise the factory awaits is the one made in
    [activate]; and every acquisition of the kernel tool and every
    transport is for the dotnet path of that promise. *)
Theorem dotnet_path_acquired_once (h : Host) (s : Store)
    (requests : list (Host * string)) :
  match activate h s with
  | (Ok a, s1) =>
      let s2 := create_clients a requests s1 in
      exists events,
        log s2 = log s ++ events
        /\ length (filter is_version_check events) = 1
        /\ length (filter is_dotnet_acquire events) <= 1
        /\ act_dotnetPromise a = dotnet_outcome h
        /\ (forall installArgs,
              EExecuteCommand "dotnet-interactive.acquire" (InstallInteractiveArg installArgs)
                ∈ events ->
              act_dotnetPromise a = Ok (ia_dotnetPath installArgs))
        /\ (forall id processStart,
              ENewTransport id processStart ∈ events ->
              exists dotnetPath template notebookPath workingDirectory,
                act_dotnetPromise a = Ok dotnetPath
                /\ processArguments template notebookPath dotnetPath workingDirectory
                   = Ok processStart)
  | (Thrown _, _) => False
  end.
Proof.
  rewrite activate_run.
  set (a := {| act_config := _ |}). set (s1 := {| log := _ |}).
  destruct (create_clients_events a requests s1) as (created & Hlog & Hall & _).
  destruct (creation_event_filters a created Hall) as (Hv & Hd & _).
  destruct (dotnet_events_shape h) as (acq & line & Hshape & Hacq & Hline).
  eexists. split.
  { rewrite Hlog. subst s1. cbn [log]. rewrite <- app_assoc. reflexivity. }
  rewrite Hshape.
  repeat split.
  - rewrite !filter_app, Hv.
    destruct Hacq as [-> | [v ->]], Hline as [-> | [l ->]]; reflexivity.
  - rewrite !filter_app, Hd.
    destruct Hacq as [-> | [v ->]], Hline as [-> | [l ->]]; simpl; lia.
  - intros installArgs Hin.
    apply elem_of_app in Hin as [Hin | Hin].
    + destruct Hacq as [-> | [v ->]], Hline as [-> | [l ->]]; simpl in Hin;
        by not_among Hin.
    + rewrite Forall_forall in Hall. apply Hall in Hin.
      destruct Hin as (_ & dp & Hdp & [= ->]). done.
  - intros id processStart Hin.
    apply elem_of_app in Hin as [Hin | Hin].
    + destruct Hacq as [-> | [v ->]], Hline as [-> | [l ->]]; simpl in Hin;
        by not_among Hin.
    + rewrite Forall_forall in Hall. apply Hall in Hin.
      destruct Hin as (dp & nb & wd & Hdp & Hps). eauto 6.
Qed.

End Session.

(** ** The configuration the factory reads *)

Section Configuration.
Context `{Imports}.

(** The factory never asks the host for the configuration: what the
    settings are when a client is created makes no difference to the
    creation.  The template of the process arguments is read from the
    configuration object of the activation. *)
Lemma factory_ignores_current_settings (a : Activation) (notebookPath : string)
    (h : Host) (configuration : string -> WorkspaceConfiguration) (s : Store) :
  kernelTransportCreator a notebookPath (with_configuration h configuration) s
  = kernelTransportCreator a notebookPath h s.
Proof.
  unfold kernelTransportCreator, getInteractiveLaunchOptions, setExternalUri,
    waitForReady, new_StdioKernelTransport.
  run. cbn [with_configuration h_interactive_acquire h_launch h_asExternalUri h_tunnel].
  destruct (act_dotnetPromise a) as [dotnetPath|]; [|reflexivity].
  destruct (h_interactive_acquire h {| ia_dotnetPath := dotnetPath |}) as [[lo|]|];
    reflexivity.
Qed.

(** [getDotnetPath], for one, obtains the configuration where it reads it
    (line 131): the minimum version it checks against and asks for is the
    one of the settings of the moment. *)
Lemma getDotnetPath_reads_current_settings (h : Host) :
  exists rest,
    dotnet_events h = EGetConfiguration "dotnet-interactive" :: rest
    /\ (forall v id, EExecuteCommand "dotnet.acquire" (DotnetAcquireArg v id) ∈ rest ->
          v = config_get (h_configuration h "dotnet-interactive") "minimumDotNetSdkVersion").
Proof.
  unfold dotnet_events, getDotnetPath, isDotnetUpToDate.
  run. cases; stores; eexists; (split; [reflexivity|]); intros v id Hin.
  all: repeat (apply elem_of_cons in Hin as [Hin | Hin]; [by simplify_eq|]).
  all: by apply elem_of_nil in Hin.
Qed.

End Configuration.

(** C1, on the session of [Scenario]: the extension is activated and a
    first client created while the setting ['kernelTransportArgs'] is
    [["old"]]; the setting is then changed to [["new"]] and a second client
    created.  Both creations succeed, and the process of the second one is
    started with the arguments [["old"]], those of the configuration object
    of line 28, although the settings say [["new"]] by then. *)
Theorem second_creation_uses_stale_arguments :
  config_get (h_configuration Scenario.after "dotnet-interactive") "kernelTransportArgs"
  = JArray [JString "new"]
  /\ exists first second,
       Scenario.session = [Ok first; Ok second]
       /\ ps_args (transport_start first) = ["old"]
       /\ ps_args (transport_start second) = ["old"].
Proof.
  split; [by vm_compute|].
  do 2 eexists. split; [vm_compute; reflexivity|]. split; reflexivity.
Qed.

(** The first creation of the session of [Scenario], call by call: the
    kernel announces port 8765 after a line of plain output, and the URI
    tunnelled is the one of that port. *)
Example scenario_first_creation :
  match Scenario.activated with
  | (Ok a, s1) =>
      let s2 := snd (kernelTransportCreator (H := Scenario.imports) a "/notebooks/a.dib"
                       Scenario.before s1) in
      drop (length (log s1)) (log s2)
      = [EAppendLine ("Creating client for notebook " +:+ dquote
                        +:+ "/notebooks/a.dib" +:+ dquote);
         EExecuteCommand "dotnet-interactive.acquire"
           (InstallInteractiveArg {| ia_dotnetPath := "dotnet" |});
         ENewTransport 0 {| ps_command := "dotnet"; ps_args := ["old"];
                            ps_workingDirectory := "/storage" |};
         EWaitForReady 0 (Ok 8765%N);
         EAsExternalUri "http://localhost:8765";
         ESetExternalUri 0 "https://tunnel.example/http://localhost:8765" (Ok tt)]
  | (Thrown _, _) => False
  end.
Proof. vm_compute. reflexivity. Qed.

Example scenario_local_endpoint :
  match Scenario.session with
  | Ok t :: _ => local_endpoint t = "localhost:8765"
  | _ => False
  end.
Proof. vm_compute. reflexivity. Qed.

Example scenario_delay :
  match fst Scenario.activated with
  | Ok a => act_diagnosticDelay a = JNumber (number_of_Z 250)
  | Thrown _ => False
  end.
Proof. vm_compute. reflexivity. Qed.

Example delay_of_zero :
  diagnosticDelay {| cfg_values := {[ "liveDiagnosticDelay" := JNumber (number_of_Z 0) ]} |}
  = JNumber (number_of_Z 500).
Proof. vm_compute. reflexivity. Qed.

(** ** Closing a document *)

Lemma fire_close_none (subs : list Registration) (doc : NotebookDocument)
    (h : Host) (s : Store) :
  OnDidCloseNotebookDocument ∉ subs -> fire_close subs doc h s = (Ok tt, s).
Proof.
  induction subs as [|r subs IH]; intros Hnot; simpl; [done|].
  destruct r; try (apply IH; set_solver).
  exfalso. apply Hnot. set_solver.
Qed.

Lemma fire_close_app (subs1 subs2 : list Registration) (doc : NotebookDocument)
    (h : Host) (s : Store) :
  OnDidCloseNotebookDocument ∉ subs1 ->
  fire_close (subs1 ++ subs2) doc h s = fire_close subs2 doc h s.
Proof.
  induction subs1 as [|r subs1 IH]; intros Hnot; simpl; [done|].
  destruct r; try (apply IH; set_solver).
  exfalso. apply Hnot. set_solver.
Qed.

(** What [closeClient] does, case by case. *)
Lemma closeClient_run (d : Uri) (h : Host) (s : Store) :
  closeClient d h s =
  (Ok tt,
   match clientMap s !! d with
   | Some t =>
       match transport_state t with
       | Disposed => with_clientMap (add_log s [ECloseClient d]) (delete d (clientMap s))
       | _ => add_log (with_clientMap (add_log s [ECloseClient d]) (delete d (clientMap s)))
                [EDispose (transport_id t)]
       end
   | None => add_log s [ECloseClient d]
   end).
Proof.
  unfold closeClient, dispose. run. stores.
  destruct (clientMap s !! d) as [t|]; [|done].
  cbv beta iota zeta. destruct (transport_state t); reflexivity.
Qed.

Section Close.
Context `{Imports}.

(** C6: after activation (on a context with no listener for the event
    yet), whenever the host fires [onDidCloseNotebookDocument] for a
    document, [closeClient] is called once, with the URI of the document.
    By the contract of the mapper this removes the transport of that
    identity from the table and disposes of it if there is one (a transport
    disposed of already is not disposed of again), and changes nothing if
    there is none. *)
Theorem close_event_closes_client_once (h0 : Host) (s0 : Store)
    (h : Host) (s : Store) (notebookDocument : NotebookDocument) :
  OnDidCloseNotebookDocument ∉ subscriptions s0 ->
  subscriptions s = subscriptions (snd (activate h0 s0)) ->
  let r := fst (fire_onDidCloseNotebookDocument notebookDocument h s) in
  let s' := snd (fire_onDidCloseNotebookDocument notebookDocument h s) in
  let d := doc_uri notebookDocument in
  r = Ok tt
  /\ (exists disposed,
        log s' = log s ++ ECloseClient d :: disposed
        /\ filter is_closeClient disposed = []
        /\ match clientMap s !! d with
           | Some t =>
               disposed = match transport_state t with
                          | Disposed => []
                          | _ => [EDispose (transport_id t)]
                          end
           | None => disposed = []
           end)
  /\ clientMap s' = delete d (clientMap s)
  /\ (clientMap s !! d = None -> clientMap s' = clientMap s)
  /\ subscriptions s' = subscriptions s
  /\ next_transport s' = next_transport s.
Proof.
  intros Hfresh Hsubs r s' d. subst r s'. unfold fire_onDidCloseNotebookDocument.
  assert (Hfire : fire_close (subscriptions s) notebookDocument h s = closeClient d h s).
  { rewrite Hsubs, activate_run. cbn [snd subscriptions].
    rewrite fire_close_app by done.
    cbn [fire_close]. unfold closeListener. fold d. run.
    rewrite closeClient_run. reflexivity. }
  rewrite Hfire, closeClient_run. cbn [fst snd].
  split; [done|].
  destruct (clientMap s !! d) as [t|] eqn:Hd.
  - destruct (transport_state t) eqn:Hstate; stores;
      (split; [eexists; split; [reflexivity | split; [reflexivity | done]] |]);
      repeat split; try done.
  - stores. split; [exists []; done|].
    repeat split; try done. by rewrite delete_id.
Qed.

End Close.

(** The close event, on the session of [Scenario]: the document whose
    client was created is closed after the settings have changed. *)
Lemma close_event_closes_client_once_witness :
  (OnDidCloseNotebookDocument ∉ subscriptions initial_store)
  /\ subscriptions Scenario.opened = subscriptions (snd Scenario.activated)
  /\ fst (fire_onDidCloseNotebookDocument Scenario.document Scenario.after Scenario.opened)
     = Ok tt
  /\ clientMap (snd (fire_onDidCloseNotebookDocument Scenario.document Scenario.after
                       Scenario.opened))
     = delete (doc_uri Scenario.document) (clientMap Scenario.opened).
Proof.
  assert (H1 : OnDidCloseNotebookDocument ∉ subscriptions initial_store)
    by apply not_elem_of_nil.
  assert (H2 : subscriptions Scenario.opened = subscriptions (snd Scenario.activated))
    by (vm_compute; reflexivity).
  pose proof (close_event_closes_client_once (H := Scenario.imports)
                Scenario.before initial_store
                Scenario.after Scenario.opened Scenario.document H1 H2)
    as (Hr & _ & Hmap & _).
  exact (conj H1 (conj H2 (conj Hr Hmap))).
Defined.

(** ** Single flight *)

Module SingleFlightProofs.
Import SingleFlight.

Lemma filter_other_observed (d d' : Uri) (outcome : Result StdioKernelTransport)
    (waiting : list Caller) :
  d' <> d ->
  filter (fun o : Caller * Uri * Result StdioKernelTransport => o.1.2 = d)
    (map (fun c => (c, d', outcome)) waiting) = [].
Proof.
  intros Hne. induction waiting as [|c waiting IH]; [done|].
  simpl. rewrite filter_cons_False by done. exact IH.
Qed.

Lemma filter_own_observed (d : Uri) (outcome : Result StdioKernelTransport)
    (waiting : list Caller) :
  filter (fun o : Caller * Uri * Result StdioKernelTransport => o.1.2 = d)
    (map (fun c => (c, d, outcome)) waiting)
  = map (fun c => (c, d, outcome)) waiting.
Proof.
  induction waiting as [|c waiting IH]; [done|].
  simpl. rewrite filter_cons_True by done. by rewrite IH.
Qed.

(** A step about another identity changes nothing of what the mapper has
    for [d]. *)
Lemma step_other (m : Mapper) (d : Uri) (st : Step) :
  about d st = false ->
  table (step m st) !! d = table m !! d
  /\ inflight (step m st) !! d = inflight m !! d
  /\ launches_of d (step m st) = launches_of d m
  /\ observed_of d (step m st) = observed_of d m.
Proof.
  unfold launches_of, observed_of.
  destruct st as [c d' | d' outcome]; simpl; intros Hne;
    apply String.eqb_neq in Hne.
  - destruct (table m !! d') as [t|]; simpl.
    + rewrite filter_app, filter_cons_False, filter_nil, app_nil_r by done. done.
    + destruct (inflight m !! d') as [waiting|]; simpl.
      * by rewrite lookup_insert_ne.
      * rewrite lookup_insert_ne by done.
        rewrite filter_app, filter_cons_False, filter_nil, app_nil_r by done. done.
  - destruct (inflight m !! d') as [waiting|]; simpl; [|done].
    rewrite lookup_delete_ne by done.
    rewrite filter_app, filter_other_observed, app_nil_r by done.
    destruct outcome; [rewrite lookup_insert_ne by done|]; done.
Qed.

(** While the creation for [d] does not settle, the callers for [d] pile
    up on one creation in flight, started by the first of them. *)
Lemma run_in_flight (d : Uri) (schedule : list Step) (m : Mapper) :
  table m !! d = None ->
  Forall (fun st => settles d st = false) schedule ->
  table (run m schedule) !! d = None
  /\ observed_of d (run m schedule) = observed_of d m
  /\ match inflight m !! d, callers_of d schedule with
     | Some waiting, callers =>
         inflight (run m schedule) !! d = Some (waiting ++ callers)
         /\ launches_of d (run m schedule) = launches_of d m
     | None, [] =>
         inflight (run m schedule) !! d = None
         /\ launches_of d (run m schedule) = launches_of d m
     | None, callers =>
         inflight (run m schedule) !! d = Some callers
         /\ launches_of d (run m schedule) = launches_of d m ++ [d]
     end.
Proof.
  intros Htable Hall. revert m Htable.
  induction Hall as [|st schedule Hst _ IH]; intros m Htable.
  - simpl. destruct (inflight m !! d); by rewrite ?app_nil_r.
  - cbn [run foldl]. fold (run (step m st) schedule).
    destruct (about d st) eqn:Habout.
    + (* a call for [d] *)
      destruct st as [c d' | d' outcome]; simpl in Habout, Hst; [|congruence].
      apply String.eqb_eq in Habout as ->.
      cbn [callers_of]. rewrite String.eqb_refl.
      assert (Hstep :
        table (step m (Call c d)) !! d = None
        /\ observed_of d (step m (Call c d)) = observed_of d m
        /\ match inflight m !! d with
           | Some waiting =>
               inflight (step m (Call c d)) !! d = Some (waiting ++ [c])
               /\ launches_of d (step m (Call c d)) = launches_of d m
           | None =>
               inflight (step m (Call c d)) !! d = Some [c]
               /\ launches_of d (step m (Call c d)) = launches_of d m ++ [d]
           end).
      { unfold launches_of, observed_of. simpl. rewrite Htable.
        destruct (inflight m !! d) as [waiting|]; simpl;
          rewrite lookup_insert_eq; repeat split; try done.
        by rewrite filter_app, filter_cons_True, filter_nil. }
      destruct Hstep as (Ht & Ho & Hi).
      destruct (IH _ Ht) as (Ht' & Ho' & Hi').
      split; [done|]. split; [congruence|].
      destruct (inflight m !! d) as [waiting|]; destruct Hi as [Hi Hl];
        rewrite Hi in Hi'; destruct Hi' as [Hi' Hl'].
      * rewrite <- app_assoc in Hi'. split; [done | congruence].
      * split; [done | congruence].
    + (* a step about another identity *)
      destruct (step_other m d st Habout) as (Ht & Hi & Hl & Ho).
      assert (Hcallers : callers_of d (st :: schedule) = callers_of d schedule).
      { destruct st as [c d' | d' outcome]; simpl in *; [|done]. by rewrite Habout. }
      rewrite Hcallers.
      destruct (IH (step m st)) as (Ht' & Ho' & Hi'); [congruence|].
      rewrite Hi, Hl in Hi'. split; [done|]. split; [congruence|]. done.
Qed.

(** C7: let no transport be in the table for [d] and no creation in
    flight.  Whatever the schedule of calls and of settlings for other
    identities, if some callers call [getOrCreateClient d] before the
    creation for [d] settles, then once it has settled the factory has been
    invoked once for [d]; every one of these callers has come back with the
    outcome of that one creation, the same transport or the same failure;
    no creation is in flight; and the table has the transport when the
    creation succeeded and no entry when it failed, so that the next call
    for [d] invokes the factory again in that case only. *)
Theorem one_launch_per_identity (m : Mapper) (d : Uri) (schedule : list Step)
    (outcome : Result StdioKernelTransport) :
  table m !! d = None ->
  inflight m !! d = None ->
  Forall (fun st => settles d st = false) schedule ->
  callers_of d schedule <> [] ->
  let m' := run m (schedule ++ [Settle d outcome]) in
  launches_of d m' = launches_of d m ++ [d]
  /\ observed_of d m'
     = observed_of d m ++ map (fun c => (c, d, outcome)) (callers_of d schedule)
  /\ inflight m' !! d = None
  /\ table m' !! d = match outcome with Ok t => Some t | Thrown _ => None end
  /\ forall c,
       launches_of d (step m' (Call c d))
       = match outcome with
         | Ok _ => launches_of d m'
         | Thrown _ => launches_of d m' ++ [d]
         end.
Proof.
  intros Htable Hinflight Hall Hcallers m'. subst m'.
  unfold run. rewrite foldl_app. fold (run m schedule). cbn [foldl].
  destruct (run_in_flight d schedule m Htable Hall) as (Ht & Ho & Hi).
  rewrite Hinflight in Hi.
  destruct (callers_of d schedule) as [|c0 callers] eqn:Hcs; [done|].
  destruct Hi as [Hi Hl].
  set (m1 := run m schedule) in *.
  assert (Hsettle :
    step m1 (Settle d outcome)
    = {| table := match outcome with
                  | Ok t => <[d := t]> (table m1)
                  | Thrown _ => table m1
                  end;
         inflight := delete d (inflight m1);
         launches := launches m1;
         observed := observed m1 ++ map (fun c => (c, d, outcome)) (c0 :: callers) |}).
  { simpl. by rewrite Hi. }
  rewrite Hsettle. unfold launches_of, observed_of in *. cbn [launches observed table inflight].
  rewrite filter_app, filter_own_observed, Ho, lookup_delete_eq.
  repeat split; try done.
  - destruct outcome; [by rewrite lookup_insert_eq | done].
  - intros c. simpl. destruct outcome as [t|e].
    + by rewrite lookup_insert_eq.
    + rewrite Ht, lookup_delete_eq. simpl.
      by rewrite filter_app, filter_cons_True, filter_nil.
Qed.

(** Three callers for one document, with a call for another document in
    between, and a creation that fails. *)
Lemma one_launch_per_identity_witness :
  let d := "/notebooks/a.dib" in
  let schedule := [Call 1 d; Call 7 "/notebooks/b.dib"; Call 2 d; Call 3 d] in
  let m' := run empty (schedule ++ [Settle d (Thrown LaunchError)]) in
  launches_of d m' = [d]
  /\ observed_of d m'
     = [(1, d, Thrown LaunchError); (2, d, Thrown LaunchError); (3, d, Thrown LaunchError)]
  /\ table m' !! d = None
  /\ launches_of d (step m' (Call 4 d)) = [d; d].
Proof.
  intros d schedule m'.
  assert (H1 : table empty !! d = None) by apply lookup_empty.
  assert (H2 : inflight empty !! d = None) by apply lookup_empty.
  assert (H3 : Forall (fun st => settles d st = false) schedule)
    by (repeat constructor).
  assert (H4 : callers_of d schedule <> []) by discriminate.
  pose proof (one_launch_per_identity empty d schedule (Thrown LaunchError) H1 H2 H3 H4)
    as (Hl & Ho & _ & Ht & Hretry).
  specialize (Hretry 4).
  exact (conj Hl (conj Ho (conj Ht Hretry))).
Defined.

End SingleFlightProofs.

(** * More properties of [extension.ts] *)

Section ActivateMore.
Context `{Imports}.


(** Every run of [getDotnetPath] goes one of the six ways of
    [acquisition]. *)
Lemma getDotnetPath_acquisition (h : Host) :
  acquisition h (dotnet_events h) (dotnet_outcome h).
Proof.
  unfold dotnet_outcome, dotnet_events, getDotnetPath, isDotnetUpToDate.
  run.
  destruct (h_execute h "dotnet" ["--version"]) as [result|e] eqn:Hexec.
  2:{ stores. by apply acquisition_no_version. }
  fold (minimum_version h).
  destruct (exec_code result =? 0)%Z eqn:Hcode.
  - apply Z.eqb_eq in Hcode.
    destruct (compareVersions_compare (exec_output result) (minimum_version h) ">=")
      as [[|]|e] eqn:Hcmp.
    + stores. by eapply acquisition_up_to_date.
    + assert (not_up_to_date h result) by (right; done).
      destruct (h_dotnet_acquire h (minimum_version h)) as [[acquired|]|e] eqn:Hacq;
        stores.
      * by eapply acquisition_done.
      * by eapply acquisition_undefined.
      * by eapply acquisition_failed.
    + stores. by eapply acquisition_no_comparison.
  - apply Z.eqb_neq in Hcode.
    assert (not_up_to_date h result) by (left; done).
    destruct (h_dotnet_acquire h (minimum_version h)) as [[acquired|]|e] eqn:Hacq;
      stores.
    + by eapply acquisition_done.
    + by eapply acquisition_undefined.
    + by eapply acquisition_failed.
Qed.

(** X3: [getDotnetPath] writes its line on the diagnostics channel exactly
    when it succeeds: then the line is its last call and names the path it
    returns; when it fails it writes no line. *)
Theorem getDotnetPath_line_on_success_only (h : Host) :
  match dotnet_outcome h with
  | Ok dotnetPath =>
      exists before,
        dotnet_events h
        = before ++ [EAppendLine ("Using dotnet from " +:+ dquote +:+ dotnetPath +:+ dquote)]
        /\ filter is_appendLine before = []
  | Thrown _ => filter is_appendLine (dotnet_events h) = []
  end.
Proof.
  destruct (getDotnetPath_acquisition h); try reflexivity.
  - by exists [EGetConfiguration "dotnet-interactive"; EExecute "dotnet" ["--version"]].
  - by exists [EGetConfiguration "dotnet-interactive"; EExecute "dotnet" ["--version"];
               dotnet_acquire_event h].
Qed.

(** X4: ['dotnet.acquire'] is executed exactly when [dotnet --version] ran
    to its end and either exited with a code other than 0, in which case
    the version is not compared at all, or exited with 0 and printed a
    version that [compareVersions.compare] finds below the minimum.  The
    path [getDotnetPath] returns is ['dotnet'] when nothing was acquired,
    and the acquired one otherwise. *)
Theorem dotnet_acquire_iff_not_up_to_date (h : Host) :
  let minVersion :=
    config_get (h_configuration h "dotnet-interactive") "minimumDotNetSdkVersion" in
  (existsb is_dotnet_acquire (dotnet_events h) = true
   <-> exists result,
         h_execute h "dotnet" ["--version"] = Ok result
         /\ (exec_code result <> 0%Z
             \/ (exec_code result = 0%Z
                 /\ compareVersions_compare (exec_output result) minVersion ">="
                    = Ok false)))
  /\ match dotnet_outcome h with
     | Ok dotnetPath =>
         if existsb is_dotnet_acquire (dotnet_events h)
         then h_dotnet_acquire h minVersion = Ok (Some {| acq_dotnetPath := dotnetPath |})
         else dotnetPath = "dotnet"
     | Thrown _ => True
     end.
Proof.
  intros minVersion. fold (minimum_version h) in minVersion. subst minVersion.
  destruct (getDotnetPath_acquisition h) as
    [e He | r e He Hc Hcmp | r He Hc Hcmp | r e He Hn Ha | r He Hn Ha | r acq He Hn Ha];
    cbn [existsb is_dotnet_acquire dotnet_acquire_event using_line String.eqb orb];
    (split; [split|]); try done; try (by destruct acq).
  all: try (intros _; by exists r).
  all: intros (r' & Hr' & Hnot); rewrite He in Hr'; simplify_eq.
  all: destruct Hnot as [? | [_ ?]]; congruence.
Qed.

(** X5: when the dotnet found is not up to date and ['dotnet.acquire']
    resolves to [undefined], [getDotnetPath] fails with a [TypeError] (line
    138), after the acquisition command and with no line written. *)
Theorem getDotnetPath_undefined_acquisition (h : Host) (result : ExecResult) :
  h_execute h "dotnet" ["--version"] = Ok result ->
  exec_code result <> 0%Z ->
  h_dotnet_acquire h
    (config_get (h_configuration h "dotnet-interactive") "minimumDotNetSdkVersion")
  = Ok None ->
  (exists what, dotnet_outcome h = Thrown (TypeError what))
  /\ last (dotnet_events h)
     = Some (EExecuteCommand "dotnet.acquire"
               (DotnetAcquireArg
                  (config_get (h_configuration h "dotnet-interactive")
                     "minimumDotNetSdkVersion")
                  "ms-dotnettools.dotnet-interactive-vscode")).
Proof.
  intros Hexec Hcode Hacq. fold (minimum_version h) in *.
  destruct (getDotnetPath_acquisition h) as
    [e He | r e He Hc Hcmp | r He Hc Hcmp | r e He Hn Ha | r He Hn Ha | r acq He Hn Ha];
    try congruence.
  split; [eauto | reflexivity].
Qed.

End ActivateMore.

Lemma getDotnetPath_undefined_acquisition_witness :
  (exists what, dotnet_outcome (H := Scenario.imports) Failures.no_dotnet
                = Thrown (TypeError what))
  /\ last (dotnet_events (H := Scenario.imports) Failures.no_dotnet)
     = Some (EExecuteCommand "dotnet.acquire"
               (DotnetAcquireArg
                  (config_get (h_configuration Failures.no_dotnet "dotnet-interactive")
                     "minimumDotNetSdkVersion")
                  "ms-dotnettools.dotnet-interactive-vscode")).
Proof.
  apply (getDotnetPath_undefined_acquisition (H := Scenario.imports) Failures.no_dotnet
           {| exec_code := 1; exec_output := "" |}).
  - reflexivity.
  - discriminate.
  - reflexivity.
Defined.

Section FactoryMore.
Context `{Imports}.

(** X2: in a session, the acquisition commands are registered once, by the
    first call of all (line 26): before the configuration is read, before
    [getDotnetPath] can execute ['dotnet.acquire'] and before any client
    creation executes ['dotnet-interactive.acquire']. *)
Theorem acquisition_commands_registered_first (h : Host) (s : Store)
    (requests : list (Host * string)) :
  match activate h s with
  | (Ok a, s1) =>
      exists rest,
        log (create_clients a requests s1) = log s ++ ERegister AcquisitionCommands :: rest
        /\ (ERegister AcquisitionCommands ∉ rest)
        /\ (forall i command arg,
              (ERegister AcquisitionCommands :: rest) !! i
              = Some (EExecuteCommand command arg) ->
              0 < i)
  | (Thrown _, _) => False
  end.
Proof.
  rewrite activate_run.
  set (a := {| act_config := _ |}). set (s1 := {| log := _ |}).
  destruct (create_clients_events a requests s1) as (created & Hlog & Hall & _).
  subst s1. cbn [log] in Hlog. rewrite <- !app_assoc in Hlog.
  destruct (dotnet_events_shape h)
    as (acq & line & Hshape & [-> | [v ->]] & [-> | [l ->]]);
    rewrite Hshape in Hlog |- *; cbn [app] in Hlog |- *;
    (eexists; split; [exact Hlog|]); (split; [|intros [|i] command arg Hi; [done | lia]]).
  all: intros Hin;
    repeat (apply elem_of_cons in Hin as [Hin | Hin]; [discriminate Hin|]);
    rewrite Forall_forall in Hall; by apply Hall in Hin.
Qed.

(** X7: the factory never disposes of a transport.  A call constructs at
    most one; when the call fails after the construction, which is when
    [waitForReady], [asExternalUri] or [setExternalUri] fails, the transport
    and its subprocess are left as they are and the error is passed on. *)
Theorem factory_abandons_transport_on_failure (a : Activation) (notebookPath : string)
    (h : Host) (s : Store) :
  let r := fst (kernelTransportCreator a notebookPath h s) in
  let s' := snd (kernelTransportCreator a notebookPath h s) in
  exists events,
    log s' = log s ++ events
    /\ filter is_dispose events = []
    /\ next_transport s' = length (filter is_newTransport events) + next_transport s
    /\ length (filter is_newTransport events) <= 1
    /\ match r with
       | Ok t =>
           filter is_newTransport events
           = [ENewTransport (transport_id t) (transport_start t)]
       | Thrown e =>
           forall id processStart,
             ENewTransport id processStart ∈ events ->
             ready_outcome h processStart = Thrown e
             \/ exists port,
                  ready_outcome h processStart = Ok port
                  /\ (h_asExternalUri h (local_uri port) = Thrown e
                      \/ exists external,
                           h_asExternalUri h (local_uri port) = Ok external
                           /\ h_tunnel h external = Thrown e)
       end.
Proof.
  intros r s'. subst r s'.
  destruct (kernelTransportCreator_creation a notebookPath h s)
    as (events & n & Hrun & Hlog & Hnext & _).
  exists events. split; [done|]. rewrite Hnext.
  destruct Hrun; unfold creating_line, acquire_event;
    (split; [reflexivity|]); (split; [reflexivity|]); (split; [simpl; lia|]);
    try reflexivity.
  all: intros id ps Hin;
    repeat (apply elem_of_cons in Hin as [Hin | Hin]; [simplify_eq|]);
    try (by apply elem_of_nil in Hin); eauto 8.
Qed.

(** X8: when ['dotnet-interactive.acquire'] resolves to [undefined], the
    creation fails with a [TypeError] (line 47) after its line and the
    command: no transport is constructed and no kernel started. *)
Theorem undefined_launch_options_no_transport (a : Activation) (notebookPath : string)
    (h : Host) (s : Store) (dotnetPath : string) :
  act_dotnetPromise a = Ok dotnetPath ->
  h_interactive_acquire h {| ia_dotnetPath := dotnetPath |} = Ok None ->
  (exists what, fst (kernelTransportCreator a notebookPath h s) = Thrown (TypeError what))
  /\ log (snd (kernelTransportCreator a notebookPath h s))
     = log s ++ [EAppendLine ("Creating client for notebook " +:+ dquote
                                +:+ notebookPath +:+ dquote);
                 EExecuteCommand "dotnet-interactive.acquire"
                   (InstallInteractiveArg {| ia_dotnetPath := dotnetPath |})]
  /\ next_transport (snd (kernelTransportCreator a notebookPath h s)) = next_transport s.
Proof.
  intros Hdotnet Hacq.
  destruct (kernelTransportCreator_creation a notebookPath h s)
    as (events & n & Hrun & Hlog & Hnext & _).
  rewrite Hlog, Hnext.
  assert (Hstart : process_start a notebookPath h dotnetPath
                   = Thrown (TypeError "launchOptions is undefined")).
  { unfold process_start. by rewrite Hacq. }
  destruct Hrun; try congruence.
  assert (dotnetPath0 = dotnetPath) as -> by congruence.
  assert (e = TypeError "launchOptions is undefined") as -> by congruence.
  split; [eauto | done].
Qed.

(** Creations under a rejected promise. *)
Lemma create_under_rejected_promise (a : Activation) (e : Error)
    (requests : list (Host * string)) (s : Store) :
  act_dotnetPromise a = Thrown e ->
  create_outcomes a requests s = map (fun _ => Thrown e) requests
  /\ log (create_clients a requests s)
     = log s ++ map (fun request => creating_line request.2) requests
  /\ next_transport (create_clients a requests s) = next_transport s.
Proof.
  intros Hpromise. revert s.
  induction requests as [|[h notebookPath] requests IH]; intros s.
  - simpl. by rewrite app_nil_r.
  - cbn [create_outcomes create_clients map].
    destruct (kernelTransportCreator_creation a notebookPath h s)
      as (events & n & Hrun & Hlog & Hnext & _).
    destruct (IH (snd (kernelTransportCreator a notebookPath h s))) as (Ho & Hl & Hn).
    rewrite Ho, Hl, Hn, Hlog, Hnext.
    destruct Hrun; try congruence.
    assert (e0 = e) as -> by congruence.
    rewrite <- app_assoc. done.
Qed.

(** X6: a failure of [getDotnetPath] is final for the session.  When it
    has failed, every client creation after the activation fails with the
    same error, whatever the host is by then: the creation writes its line
    and stops, nothing is acquired and no kernel is started. *)
Theorem failed_acquisition_is_permanent (h : Host) (s : Store) (e : Error)
    (requests : list (Host * string)) :
  dotnet_outcome h = Thrown e ->
  match activate h s with
  | (Ok a, s1) =>
      create_outcomes a requests s1 = map (fun _ => Thrown e) requests
      /\ log (create_clients a requests s1)
         = log s1 ++ map (fun request =>
                            EAppendLine ("Creating client for notebook " +:+ dquote
                                           +:+ request.2 +:+ dquote)) requests
      /\ next_transport (create_clients a requests s1) = next_transport s
  | (Thrown _, _) => False
  end.
Proof.
  intros Hfailed. rewrite activate_run.
  set (a := {| act_config := _ |}). set (s1 := {| log := _ |}).
  by apply (create_under_rejected_promise a e requests s1).
Qed.

(** X9: the kernel tool is acquired anew by every client creation (line
    38), unlike the dotnet path: when the promise of the dotnet path is
    resolved, a run of creations executes ['dotnet-interactive.acquire'] as
    many times as there are creations, and never when it is rejected. *)
Theorem kernel_tool_acquired_per_creation (a : Activation)
    (requests : list (Host * string)) (s : Store) :
  exists events,
    log (create_clients a requests s) = log s ++ events
    /\ length (filter is_interactive_acquire events)
       = match act_dotnetPromise a with
         | Ok _ => length requests
         | Thrown _ => 0
         end.
Proof.
  revert s. induction requests as [|[h notebookPath] requests IH]; intros s.
  - exists []. simpl. rewrite app_nil_r. by destruct (act_dotnetPromise a).
  - cbn [create_clients].
    destruct (kernelTransportCreator_creation a notebookPath h s)
      as (events & n & Hrun & Hlog & _).
    destruct (IH (snd (kernelTransportCreator a notebookPath h s)))
      as (rest & Hlog' & Hcount).
    exists (events ++ rest). rewrite Hlog', Hlog, app_assoc. split; [done|].
    rewrite filter_app, length_app, Hcount.
    destruct Hrun; unfold creating_line, acquire_event;
      match goal with Hp : act_dotnetPromise a = _ |- _ => rewrite Hp end;
      reflexivity.
Qed.

(** X11: what the process of a created transport is made of.  When the
    factory returns a transport, its process start is [processArguments] of
    the template read from the configuration object of the activation, the
    notebook path, the dotnet path of the promise, and the working
    directory of the launch options acquired in this very creation, under
    the host of the moment. *)
Theorem created_transport_process (a : Activation) (notebookPath : string)
    (h : Host) (s : Store) :
  match fst (kernelTransportCreator a notebookPath h s) with
  | Ok t =>
      exists dotnetPath launchOptions,
        act_dotnetPromise a = Ok dotnetPath
        /\ h_interactive_acquire h {| ia_dotnetPath := dotnetPath |} = Ok (Some launchOptions)
        /\ processArguments
             {| tmpl_args := config_get (act_config a) "kernelTransportArgs";
                tmpl_workingDirectory :=
                  config_get (act_config a) "kernelTransportWorkingDirectory" |}
             notebookPath dotnetPath (lo_workingDirectory launchOptions)
           = Ok (transport_start t)
  | Thrown _ => True
  end.
Proof.
  destruct (kernelTransportCreator_creation a notebookPath h s)
    as (events & n & Hrun & _).
  destruct Hrun; try done.
  match goal with Hps : process_start _ _ _ _ = Ok _ |- _ => rename Hps into Hstart end.
  unfold process_start, argsTemplate_of in Hstart.
  destruct (h_interactive_acquire h {| ia_dotnetPath := dotnetPath |})
    as [[launchOptions|]|] eqn:Hacq; try done.
  exists dotnetPath, launchOptions. done.
Qed.

End FactoryMore.

Lemma undefined_launch_options_no_transport_witness :
  (exists what,
      fst (kernelTransportCreator (H := Scenario.imports) Failures.activation
             "/notebooks/a.dib" Failures.no_launch_options initial_store)
      = Thrown (TypeError what))
  /\ log (snd (kernelTransportCreator (H := Scenario.imports) Failures.activation
                 "/notebooks/a.dib" Failures.no_launch_options initial_store))
     = log initial_store
         ++ [EAppendLine ("Creating client for notebook " +:+ dquote
                            +:+ "/notebooks/a.dib" +:+ dquote);
             EExecuteCommand "dotnet-interactive.acquire"
               (InstallInteractiveArg {| ia_dotnetPath := "dotnet" |})]
  /\ next_transport (snd (kernelTransportCreator (H := Scenario.imports)
                            Failures.activation "/notebooks/a.dib"
                            Failures.no_launch_options initial_store))
     = next_transport initial_store.
Proof.
  apply (undefined_launch_options_no_transport (H := Scenario.imports)
           Failures.activation "/notebooks/a.dib" Failures.no_launch_options
           initial_store "dotnet"); reflexivity.
Defined.

Lemma failed_acquisition_is_permanent_witness :
  match activate (H := Scenario.imports) Failures.no_dotnet initial_store with
  | (Ok a, s1) =>
      create_outcomes (H := Scenario.imports) a
        [(Scenario.before, "/notebooks/a.dib"); (Scenario.after, "/notebooks/b.dib")] s1
      = map (fun _ => Thrown (TypeError "commandResult is undefined"))
          [(Scenario.before, "/notebooks/a.dib"); (Scenario.after, "/notebooks/b.dib")]
      /\ log (create_clients (H := Scenario.imports) a
                [(Scenario.before, "/notebooks/a.dib"); (Scenario.after, "/notebooks/b.dib")]
                s1)
         = log s1 ++ map (fun request : Host * string =>
                            EAppendLine ("Creating client for notebook " +:+ dquote
                                           +:+ request.2 +:+ dquote))
                       [(Scenario.before, "/notebooks/a.dib");
                        (Scenario.after, "/notebooks/b.dib")]
      /\ next_transport (create_clients (H := Scenario.imports) a
                           [(Scenario.before, "/notebooks/a.dib");
                            (Scenario.after, "/notebooks/b.dib")] s1)
         = next_transport initial_store
  | (Thrown _, _) => False
  end.
Proof.
  apply (failed_acquisition_is_permanent (H := Scenario.imports) Failures.no_dotnet
           initial_store (TypeError "commandResult is undefined")
           [(Scenario.before, "/notebooks/a.dib"); (Scenario.after, "/notebooks/b.dib")]).
  vm_compute. reflexivity.
Defined.

(** A creation whose tunnel cannot be established: the kernel has been
    started and announced its port, the error of [setExternalUri] is the
    outcome, and the transport is not disposed of. *)
Example abandoned_transport :
  kernelTransportCreator (H := Scenario.imports) Failures.activation "/notebooks/a.dib"
    Failures.no_tunnel initial_store
  = (Thrown (Rejected "no tunnel"),
     {| log := [EAppendLine ("Creating client for notebook " +:+ dquote
                               +:+ "/notebooks/a.dib" +:+ dquote);
                EExecuteCommand "dotnet-interactive.acquire"
                  (InstallInteractiveArg {| ia_dotnetPath := "dotnet" |});
                ENewTransport 0 {| ps_command := "dotnet"; ps_args := ["old"];
                                   ps_workingDirectory := "/storage" |};
                EWaitForReady 0 (Ok 8765%N);
                EAsExternalUri "http://localhost:8765";
                ESetExternalUri 0 "https://tunnel.example/http://localhost:8765"
                  (Thrown (Rejected "no tunnel"))];
        next_transport := 1; subscriptions := []; clientMap := ∅ |}).
Proof. vm_compute. reflexivity. Qed.

Section LanguagesMore.
Context `{Imports}.

(** X10: whatever the event, [updateCellLanguageInMetadata] applies at most
    one edit, at an index the document has, and changes nothing but
    metadata: the document keeps its cells in number and order, each with
    its identity, kind, text, language and outputs, and keeps its URI, its
    languages and its own metadata. *)
Theorem updateCellLanguageInMetadata_keeps_cells
    (cell : NotebookCell) (document : NotebookDocument) (language : string) :
  let document' := fst (updateCellLanguageInMetadata cell document language) in
  let edits := snd (updateCellLanguageInMetadata cell document language) in
  map cell_but_metadata (doc_cells document') = map cell_but_metadata (doc_cells document)
  /\ doc_uri document' = doc_uri document
  /\ doc_languages document' = doc_languages document
  /\ doc_metadata document' = doc_metadata document
  /\ (edits = []
      \/ exists index metadata,
           edits = [[ReplaceNotebookCellMetadata (doc_uri document) index metadata]]
           /\ index < length (doc_cells document)).
Proof.
  unfold updateCellLanguageInMetadata.
  destruct (isDotnetInteractiveLanguage language); [|by repeat split; eauto].
  destruct (findIndex_spec (same_cell cell) (doc_cells document))
    as [[-> _] | (i & c & -> & Hc & _)]; [by repeat split; eauto|].
  destruct (0 <=? Z.of_nat i)%Z eqn:Hle; [|apply Z.leb_gt in Hle; lia].
  rewrite Nat2Z.id. unfold applyEdit. cbn [fst snd foldl apply_edit].
  rewrite String.eqb_refl. cbn [set_cells doc_cells doc_uri doc_metadata doc_languages].
  repeat split.
  - apply list_eq. intros j. rewrite !list_lookup_fmap.
    destruct (decide (j = i)) as [->|Hne].
    + rewrite list_lookup_alter_eq, Hc. reflexivity.
    + by rewrite list_lookup_alter_ne.
  - right. do 2 eexists. split; [reflexivity|]. by apply lookup_lt_Some in Hc.
Qed.

End LanguagesMore.
